(** * Clause-analysis relay (index.py): extractor, pipeline and request handler

    A shallow embedding of [src/index.py]:

    - [extract_json]          (index.py, lines 144-167)
    - [analyze_with_mistral]  (index.py, lines 55-142)
    - [analyze_clauses]       (index.py, lines 26-53)

    Python text is a sequence of Unicode code points ([str] below).  Python
    values are the values the JSON decoder and the literal evaluator produce
    that the program inspects: None, bool, int, float, str, list, tuple and
    dict with str keys.  A float is kept as the decimal lexeme it was read
    from.  Exceptions are values: a computation returns [Ok v] or
    [Raise e], and every [try ... except] of the source is a [try_except].

    The calls the properties speak about (the pipeline, the provider
    request, the two parsers) are recorded in a call trace, in program
    order.  Logging has no influence on any returned value and is left
    out.

    The collaborators outside the repository are inputs, gathered in
    [World]: the configured credential, the provider's answer to the
    request, the literal evaluator outside the fragment of Python literals
    that [literal_fragment] evaluates itself, and the exception of the
    encoder behind [jsonify] on the values it refuses.

    Outside the model: bytes values (a reply that is a literal [b'...']),
    and the limits of the interpreter in the JSON decoder.  [json_loads_str]
    is the decoder of the grammar; a text nested deeper than the recursion
    limit, or holding an integer of more digits than the interpreter
    converts, makes [json.loads] raise RecursionError or ValueError, and
    no statement below speaks about such a text. *)

From Stdlib Require Import String Ascii DecimalString.
From Stdlib Require Import List NArith ZArith Lia Bool.
Import ListNotations.

Set Implicit Arguments.
Set Warnings "-register-all".

(** ** Text *)

Definition char := N.
Definition str := list char.

(** An ASCII literal of the development, character by character. *)
Definition u (s : String.string) : str :=
  map Ascii.N_of_ascii (String.list_ascii_of_string s).
Arguments u s%_string.

Definition DQ : char := 34%N.        (* the double quote *)
Definition NL : char := 10%N.        (* \n *)
Definition CR : char := 13%N.        (* \r *)
Definition SP : char := 32%N.
Definition BACKTICK : char := 96%N.
Definition LBRACE : char := 123%N.
Definition RBRACE : char := 125%N.
Definition BACKSLASH : char := 92%N.

(** A literal in which the apostrophe stands for the double quote: JSON
    text is written [jq "{'k': 1}"]. *)
Definition jq (s : String.string) : str :=
  map (fun c => if N.eqb c 39 then DQ else c) (u s).
Arguments jq s%_string.

Fixpoint str_eqb (a b : str) : bool :=
  match a, b with
  | [], [] => true
  | x :: a', y :: b' => N.eqb x y && str_eqb a' b'
  | _, _ => false
  end.

Fixpoint starts_with (p s : str) : bool :=
  match p, s with
  | [], _ => true
  | x :: p', y :: s' => N.eqb x y && starts_with p' s'
  | _ :: _, [] => false
  end.

(** [p in s] on two strings: [p] occurs in [s]. *)
Fixpoint str_contains (p s : str) : bool :=
  starts_with p s ||
  match s with
  | [] => false
  | _ :: s' => str_contains p s'
  end.

(** [str.isspace] on one character. *)
Definition isspace (c : char) : bool :=
  ((9 <=? c) && (c <=? 13) || (28 <=? c) && (c <=? 32)
   || (c =? 133) || (c =? 160) || (c =? 5760)
   || (8192 <=? c) && (c <=? 8202)
   || (c =? 8232) || (c =? 8233) || (c =? 8239) || (c =? 8287)
   || (c =? 12288))%N.

Fixpoint lstrip (s : str) : str :=
  match s with
  | c :: s' => if isspace c then lstrip s' else s
  | [] => []
  end.

Definition rstrip (s : str) : str := rev (lstrip (rev s)).

(** [s.strip()] *)
Definition strip (s : str) : str := rstrip (lstrip s).

(** [s.replace(old, new)] for a one-character [old]. *)
Definition replace_char (old : char) (new : str) (s : str) : str :=
  flat_map (fun c => if N.eqb c old then new else [c]) s.

(** ** Regular expressions of the extractor *)

(** [re.sub(r"```(?:json)?", "", s)]: scanning from the left, every match
    of three backticks, with a directly following [json] when there is
    one, is dropped; matches do not overlap.  The fuel is the length of
    the text, one unit per character or match. *)
Fixpoint re_sub_fence_aux (fuel : nat) (s : str) : str :=
  match fuel with
  | O => []
  | S fuel' =>
      match s with
      | [] => []
      | c :: s' =>
          if starts_with (u "```") s then
            let r := skipn 3 s in
            if starts_with (u "json") r
            then re_sub_fence_aux fuel' (skipn 4 r)
            else re_sub_fence_aux fuel' r
          else c :: re_sub_fence_aux fuel' s'
      end
  end.

Definition re_sub_fence (s : str) : str := re_sub_fence_aux (List.length s) s.

(** Everything from the first occurrence of [c] on. *)
Fixpoint drop_until (c : char) (s : str) : option str :=
  match s with
  | [] => None
  | x :: s' => if N.eqb x c then Some s else drop_until c s'
  end.

(** The prefix of [s] that ends with the last occurrence of [c]. *)
Fixpoint take_through_last (c : char) (s : str) : option str :=
  match s with
  | [] => None
  | x :: s' =>
      match take_through_last c s' with
      | Some p => Some (x :: p)
      | None => if N.eqb x c then Some [x] else None
      end
  end.

(** [re.search(r"\{.*\}", s, re.DOTALL)] followed by [match.group()]: the
    span from the first opening brace to the last closing brace after it. *)
Definition re_search_braces (s : str) : option str :=
  match drop_until LBRACE s with
  | Some (_ :: r) =>
      match take_through_last RBRACE r with
      | Some p => Some (LBRACE :: p)
      | None => None
      end
  | _ => None
  end.

(** ** Values and exceptions *)

Inductive pyval : Type :=
| PyNone
| PyBool (b : bool)
| PyInt (z : Z)
| PyFloat (lexeme : str)
| PyStr (s : str)
| PyList (l : list pyval)
| PyTuple (l : list pyval)
| PyDict (d : list (str * pyval)).

(** Exception classes the program tells apart in its [except] clauses.
    [RequestsJSONDecodeError] is [requests.exceptions.JSONDecodeError],
    a subclass of both [RequestException] and [json.JSONDecodeError]. *)
Inductive exn_class : Type :=
| KeyError | IndexError | TypeError | AttributeError
| ValueError | SyntaxError | RecursionError
| JSONDecodeError
| RequestException
| RequestsJSONDecodeError
| OtherException (name : str).

(** An exception: its class and [str(e)]. *)
Record exn : Type := Exn { exn_class_of : exn_class; exn_str : str }.

Definition is_RequestException (e : exn) : bool :=
  match exn_class_of e with
  | RequestException | RequestsJSONDecodeError => true
  | _ => false
  end.

Definition is_JSONDecodeError (e : exn) : bool :=
  match exn_class_of e with
  | JSONDecodeError | RequestsJSONDecodeError => true
  | _ => false
  end.

Inductive result (A : Type) : Type :=
| Ok (a : A)
| Raise (e : exn).
Arguments Ok {A} a.
Arguments Raise {A} e.

Definition rbind {A B} (r : result A) (f : A -> result B) : result B :=
  match r with
  | Ok a => f a
  | Raise e => Raise e
  end.

(** ** Dictionaries *)

Fixpoint dict_get (k : str) (d : list (str * pyval)) : option pyval :=
  match d with
  | [] => None
  | (k', v) :: d' => if str_eqb k k' then Some v else dict_get k d'
  end.

(** [d[k] = v]: an existing key keeps its place, a new key goes last. *)
Fixpoint dict_set (k : str) (v : pyval) (d : list (str * pyval))
  : list (str * pyval) :=
  match d with
  | [] => [(k, v)]
  | (k', v') :: d' =>
      if str_eqb k k' then (k, v) :: d' else (k', v') :: dict_set k v d'
  end.

(** [dict(pairs)] *)
Definition dict_of_pairs (pairs : list (str * pyval)) : list (str * pyval) :=
  fold_left (fun d kv => dict_set (fst kv) (snd kv) d) pairs [].

(** ** Operators on values *)

Definition type_name (v : pyval) : str :=
  match v with
  | PyNone => u "NoneType"
  | PyBool _ => u "bool"
  | PyInt _ => u "int"
  | PyFloat _ => u "float"
  | PyStr _ => u "str"
  | PyList _ => u "list"
  | PyTuple _ => u "tuple"
  | PyDict _ => u "dict"
  end.

Definition isinstance_dict (v : pyval) : bool :=
  match v with PyDict _ => true | _ => false end.

Definition isinstance_str (v : pyval) : bool :=
  match v with PyStr _ => true | _ => false end.

(** *** Decimal digits *)

Definition is_digit (c : char) : bool := ((48 <=? c) && (c <=? 57))%N.

Fixpoint span_digits (s : str) : str * str :=
  match s with
  | c :: r =>
      if is_digit c then let (d, r') := span_digits r in (c :: d, r')
      else ([], s)
  | [] => ([], [])
  end.

Definition digits_value (ds : str) : Z :=
  fold_left (fun acc c => (acc * 10 + Z.of_N (c - 48))%Z) ds 0%Z.

(** The float a decimal lexeme is read as is zero: the lexeme is a sign,
    digits, an optional fraction and an optional exponent, and its value
    [m * 10 ^ e] is at most [2 ^ -1075], half the least positive float,
    which rounds to zero.  NaN, the infinities and any other text are not
    zero. *)
Definition float_is_zero (l : str) : bool :=
  let s1 := match l with
            | c :: r => if ((c =? 45) || (c =? 43))%N then r else l
            | [] => l
            end in
  let (ip, s2) := span_digits s1 in
  let (fp, s3) := match s2 with
                  | d :: r => if (d =? 46)%N then span_digits r else ([], s2)
                  | [] => ([], s2)
                  end in
  let '(eneg, (ep, s4)) :=
    match s3 with
    | e :: r =>
        if ((e =? 101) || (e =? 69))%N then
          match r with
          | g :: r' =>
              if (g =? 45)%N then (true, span_digits r')
              else if (g =? 43)%N then (false, span_digits r')
              else (false, span_digits r)
          | [] => (false, ([], s3))
          end
        else (false, ([], s3))
    | [] => (false, ([], s3))
    end in
  match ip ++ fp, s4 with
  | _ :: _, [] =>
      let m := digits_value (ip ++ fp) in
      let e := ((if eneg then - digits_value ep else digits_value ep)
                - Z.of_nat (List.length fp))%Z in
      ((m =? 0) || ((e <? 0) && (m * 2 ^ 1075 <=? 10 ^ (- e))))%Z
  | _, _ => false
  end.

(** Truth value of a value, as [not v] and [if v] take it. *)
Definition truthy (v : pyval) : bool :=
  match v with
  | PyNone => false
  | PyBool b => b
  | PyInt z => negb (Z.eqb z 0)
  | PyFloat l => negb (float_is_zero l)
  | PyStr s => match s with [] => false | _ => true end
  | PyList l | PyTuple l => match l with [] => false | _ => true end
  | PyDict d => match d with [] => false | _ => true end
  end.

Definition elem_is_str (k : str) (v : pyval) : bool :=
  match v with PyStr s => str_eqb k s | _ => false end.

(** [k in c] for a string [k]. *)
Definition py_in (k : str) (c : pyval) : result bool :=
  match c with
  | PyDict d => Ok (match dict_get k d with Some _ => true | None => false end)
  | PyList l | PyTuple l => Ok (existsb (elem_is_str k) l)
  | PyStr s => Ok (str_contains k s)
  | _ => Raise (Exn TypeError
                  (u "argument of type '" ++ type_name c ++ u "' is not iterable"))
  end.

(** [c[k]] for a string [k]. *)
Definition getitem_str (c : pyval) (k : str) : result pyval :=
  match c with
  | PyDict d =>
      match dict_get k d with
      | Some v => Ok v
      | None => Raise (Exn KeyError (u "'" ++ k ++ u "'"))
      end
  | PyList _ =>
      Raise (Exn TypeError (u "list indices must be integers or slices, not str"))
  | PyTuple _ =>
      Raise (Exn TypeError (u "tuple indices must be integers or slices, not str"))
  | PyStr _ =>
      Raise (Exn TypeError (u "string indices must be integers, not 'str'"))
  | _ =>
      Raise (Exn TypeError
               (u "'" ++ type_name c ++ u "' object is not subscriptable"))
  end.

(** [c[0]] *)
Definition getitem_0 (c : pyval) : result pyval :=
  match c with
  | PyDict _ => Raise (Exn KeyError (u "0"))
  | PyList l =>
      match l with
      | v :: _ => Ok v
      | [] => Raise (Exn IndexError (u "list index out of range"))
      end
  | PyTuple l =>
      match l with
      | v :: _ => Ok v
      | [] => Raise (Exn IndexError (u "tuple index out of range"))
      end
  | PyStr s =>
      match s with
      | c0 :: _ => Ok (PyStr [c0])
      | [] => Raise (Exn IndexError (u "string index out of range"))
      end
  | _ =>
      Raise (Exn TypeError
               (u "'" ++ type_name c ++ u "' object is not subscriptable"))
  end.

(** [c.get(k, default)] *)
Definition py_get (c : pyval) (k : str) (default : pyval) : result pyval :=
  match c with
  | PyDict d =>
      Ok (match dict_get k d with Some v => v | None => default end)
  | _ =>
      Raise (Exn AttributeError
               (u "'" ++ type_name c ++ u "' object has no attribute 'get'"))
  end.

(** ** The JSON decoder: [json.loads] on a string

    The decoder of the Python standard library with its default settings:
    strict strings, the constants NaN, Infinity and -Infinity accepted,
    a repeated member name resolved to its last value.  The text of a
    [JSONDecodeError] carries a position in the library; no value the
    program returns depends on it, and it is left out. *)

Definition json_error (msg : String.string) : exn := Exn JSONDecodeError (u msg).
Arguments json_error msg%_string.

Definition json_ws (c : char) : bool :=
  ((c =? 32) || (c =? 9) || (c =? 10) || (c =? 13))%N.

Fixpoint skip_ws (s : str) : str :=
  match s with
  | c :: s' => if json_ws c then skip_ws s' else s
  | [] => []
  end.

Definition hex_digit (c : char) : option N :=
  if is_digit c then Some (c - 48)%N
  else if ((97 <=? c) && (c <=? 102))%N then Some (c - 87)%N
  else if ((65 <=? c) && (c <=? 70))%N then Some (c - 55)%N
  else None.

Definition hex4 (s : str) : option (N * str) :=
  match s with
  | a :: b :: c :: d :: r =>
      match hex_digit a, hex_digit b, hex_digit c, hex_digit d with
      | Some x, Some y, Some z, Some w =>
          Some ((((x * 16 + y) * 16 + z) * 16 + w)%N, r)
      | _, _, _, _ => None
      end
  | _ => None
  end.

Definition is_high_surrogate (c : N) : bool := ((55296 <=? c) && (c <=? 56319))%N.
Definition is_low_surrogate (c : N) : bool := ((56320 <=? c) && (c <=? 57343))%N.
Definition join_surrogates (hi lo : N) : N :=
  (65536 + ((hi - 55296) * 1024 + (lo - 56320)))%N.

(** The one-character escapes after a backslash. *)
Definition backslash_table (c : char) : option char :=
  if (c =? 34)%N then Some 34%N
  else if (c =? 92)%N then Some 92%N
  else if (c =? 47)%N then Some 47%N
  else if (c =? 98)%N then Some 8%N
  else if (c =? 102)%N then Some 12%N
  else if (c =? 110)%N then Some 10%N
  else if (c =? 114)%N then Some 13%N
  else if (c =? 116)%N then Some 9%N
  else None.

(** The body of a string, from just after its opening quote: the decoded
    text and the input after the closing quote. *)
Fixpoint scanstring_aux (fuel : nat) (acc : str) (s : str) : result (str * str) :=
  match fuel with
  | O => Raise (json_error "Unterminated string starting at")
  | S fuel' =>
      match s with
      | [] => Raise (json_error "Unterminated string starting at")
      | c :: r =>
          if (c =? DQ)%N then Ok (rev acc, r)
          else if (c =? BACKSLASH)%N then
            match r with
            | [] => Raise (json_error "Unterminated string starting at")
            | e :: r' =>
                if (e =? 117)%N then
                  match hex4 r' with
                  | Some (uni, r2) =>
                      match r2 with
                      | [] => Raise (json_error "Invalid \uXXXX escape")
                      | _ :: _ =>
                          if is_high_surrogate uni
                             && (7 <=? List.length r2)%nat
                             && starts_with [BACKSLASH; 117%N] r2
                          then
                            match hex4 (skipn 2 r2) with
                            | Some (uni2, r3) =>
                                if is_low_surrogate uni2
                                then scanstring_aux fuel'
                                       (join_surrogates uni uni2 :: acc) r3
                                else scanstring_aux fuel' (uni :: acc) r2
                            | None => Raise (json_error "Invalid \uXXXX escape")
                            end
                          else scanstring_aux fuel' (uni :: acc) r2
                      end
                  | None => Raise (json_error "Invalid \uXXXX escape")
                  end
                else
                  match backslash_table e with
                  | Some ch => scanstring_aux fuel' (ch :: acc) r'
                  | None => Raise (json_error "Invalid \escape")
                  end
            end
          else if (c <? 32)%N then Raise (json_error "Invalid control character at")
          else scanstring_aux fuel' (c :: acc) r
      end
  end.

Definition scanstring (s : str) : result (str * str) :=
  scanstring_aux (List.length s) [] s.

(** The number at the head of [s], if any: an optional minus sign, an
    integer part without superfluous zeros, an optional fraction and an
    optional exponent.  Without fraction and exponent it is an int. *)
Definition match_number (s : str) : option (pyval * str) :=
  let (neg, s1) :=
    match s with
    | c :: r => if (c =? 45)%N then (true, r) else (false, s)
    | [] => (false, s)
    end in
  match s1 with
  | c :: r =>
      if is_digit c then
        let (ip, s2) := if (c =? 48)%N then ([c], r) else span_digits s1 in
        let (frac, s3) :=
          match s2 with
          | d :: r2 =>
              if (d =? 46)%N then
                match span_digits r2 with
                | ([], _) => ([], s2)
                | (ds, r3) => (d :: ds, r3)
                end
              else ([], s2)
          | [] => ([], s2)
          end in
        let (exp, s4) :=
          match s3 with
          | e :: r3 =>
              if ((e =? 101) || (e =? 69))%N then
                let (sg, r4) :=
                  match r3 with
                  | g :: r5 =>
                      if ((g =? 43) || (g =? 45))%N then ([g], r5) else ([], r3)
                  | [] => ([], r3)
                  end in
                match span_digits r4 with
                | ([], _) => ([], s3)
                | (ds, r6) => (e :: sg ++ ds, r6)
                end
              else ([], s3)
          | [] => ([], s3)
          end in
        match frac, exp with
        | [], [] =>
            Some (PyInt (if neg then - digits_value ip else digits_value ip)%Z, s4)
        | _, _ =>
            Some (PyFloat ((if neg then [45%N] else []) ++ ip ++ frac ++ exp), s4)
        end
      else None
  | [] => None
  end.

(** [scan_once]: one JSON value at the head of [s] and the input after it.
    [object_members] starts just after the opening quote of a member name,
    [array_items] at the first character of an item.  Each call uses one
    unit of fuel; [json_loads] gives enough for any text. *)
Fixpoint scan_once (fuel : nat) (s : str) : result (pyval * str) :=
  match fuel with
  | O => Raise (Exn RecursionError (u "maximum recursion depth exceeded"))
  | S fuel' =>
      match s with
      | [] => Raise (json_error "Expecting value")
      | c :: r =>
          if (c =? DQ)%N then
            rbind (scanstring r) (fun kr => Ok (PyStr (fst kr), snd kr))
          else if (c =? LBRACE)%N then
            match skip_ws r with
            | c1 :: r1 =>
                if (c1 =? RBRACE)%N then Ok (PyDict [], r1)
                else if (c1 =? DQ)%N then object_members fuel' [] r1
                else Raise (json_error
                       "Expecting property name enclosed in double quotes")
            | [] => Raise (json_error
                       "Expecting property name enclosed in double quotes")
            end
          else if (c =? 91)%N then
            match skip_ws r with
            | c1 :: r1 =>
                if (c1 =? 93)%N then Ok (PyList [], r1)
                else array_items fuel' [] (c1 :: r1)
            | [] => Raise (json_error "Expecting value")
            end
          else if starts_with (u "null") s then Ok (PyNone, skipn 4 s)
          else if starts_with (u "true") s then Ok (PyBool true, skipn 4 s)
          else if starts_with (u "false") s then Ok (PyBool false, skipn 5 s)
          else
            match match_number s with
            | Some res => Ok res
            | None =>
                if starts_with (u "NaN") s
                then Ok (PyFloat (u "NaN"), skipn 3 s)
                else if starts_with (u "Infinity") s
                then Ok (PyFloat (u "Infinity"), skipn 8 s)
                else if starts_with (u "-Infinity") s
                then Ok (PyFloat (u "-Infinity"), skipn 9 s)
                else Raise (json_error "Expecting value")
            end
      end
  end

with object_members (fuel : nat) (pairs : list (str * pyval)) (s : str)
  : result (pyval * str) :=
  match fuel with
  | O => Raise (Exn RecursionError (u "maximum recursion depth exceeded"))
  | S fuel' =>
      rbind (scanstring s) (fun kr =>
      match skip_ws (snd kr) with
      | c :: r =>
          if (c =? 58)%N then
            rbind (scan_once fuel' (skip_ws r)) (fun vr =>
            let pairs' := (fst kr, fst vr) :: pairs in
            match skip_ws (snd vr) with
            | c1 :: r1 =>
                if (c1 =? RBRACE)%N
                then Ok (PyDict (dict_of_pairs (rev pairs')), r1)
                else if (c1 =? 44)%N then
                  match skip_ws r1 with
                  | c2 :: r2 =>
                      if (c2 =? DQ)%N then object_members fuel' pairs' r2
                      else Raise (json_error
                             "Expecting property name enclosed in double quotes")
                  | [] => Raise (json_error
                             "Expecting property name enclosed in double quotes")
                  end
                else Raise (json_error "Expecting ',' delimiter")
            | [] => Raise (json_error "Expecting ',' delimiter")
            end)
          else Raise (json_error "Expecting ':' delimiter")
      | [] => Raise (json_error "Expecting ':' delimiter")
      end)
  end

with array_items (fuel : nat) (values : list pyval) (s : str)
  : result (pyval * str) :=
  match fuel with
  | O => Raise (Exn RecursionError (u "maximum recursion depth exceeded"))
  | S fuel' =>
      rbind (scan_once fuel' s) (fun vr =>
      let values' := fst vr :: values in
      match skip_ws (snd vr) with
      | c1 :: r1 =>
          if (c1 =? 93)%N then Ok (PyList (rev values'), r1)
          else if (c1 =? 44)%N then array_items fuel' values' (skip_ws r1)
          else Raise (json_error "Expecting ',' delimiter")
      | [] => Raise (json_error "Expecting ',' delimiter")
      end)
  end.

(** [json.loads(s)] for a string [s], the limits of the interpreter
    aside (recursion depth, digits of an integer). *)
Definition json_loads_str (s : str) : result pyval :=
  if starts_with [65279%N] s
  then Raise (json_error "Unexpected UTF-8 BOM (decode using utf-8-sig)")
  else
    rbind (scan_once (2 * List.length s + 2) (skip_ws s)) (fun vr =>
    match skip_ws (snd vr) with
    | [] => Ok (fst vr)
    | _ :: _ => Raise (json_error "Extra data")
    end).

(** [json.loads(v)]: of the values of the model, anything but text is
    refused. *)
Definition json_loads (v : pyval) : result pyval :=
  match v with
  | PyStr s => json_loads_str s
  | _ => Raise (Exn TypeError
                  (u "the JSON object must be str, bytes or bytearray, not "
                     ++ type_name v))
  end.

(** ** The literal evaluator: [ast.literal_eval]

    The grammar of Python literals is large.  A small fragment is
    evaluated here: None, True, False, decimal integers of at most 18
    digits, quoted strings of printable ASCII without backslash, flat
    list and tuple displays of these, separated by commas and blanks, and
    mapping displays whose keys are such strings and whose values are such
    atoms or flat displays.
    On any other text the outcome of the evaluator is an input, supplied
    by the [World]. *)

Definition lit_delim (s : str) : bool :=
  match s with
  | [] => true
  | c :: _ =>
      ((c =? 32) || (c =? 44) || (c =? 93) || (c =? 41) || (c =? 58) || (c =? 125))%N
  end.

Fixpoint lit_string_body (q : char) (acc : str) (s : str) : option (str * str) :=
  match s with
  | [] => None
  | c :: r =>
      if (c =? q)%N then Some (rev acc, r)
      else if ((32 <=? c) && (c <=? 126) && negb (c =? BACKSLASH))%N
      then lit_string_body q (c :: acc) r
      else None
  end.

Definition lit_keyword (k : String.string) (v : pyval) (s : str)
  : option (pyval * str) :=
  if starts_with (u k) s && lit_delim (skipn (List.length (u k)) s)
  then Some (v, skipn (List.length (u k)) s) else None.
Arguments lit_keyword k%_string v s.

Definition lit_atom (s : str) : option (pyval * str) :=
  match s with
  | [] => None
  | c :: r =>
      if ((c =? 39) || (c =? 34))%N then
        match lit_string_body c [] r with
        | Some (body, r') => if lit_delim r' then Some (PyStr body, r') else None
        | None => None
        end
      else if is_digit c then
        let (ds, r') := span_digits s in
        if lit_delim r' && (List.length ds <=? 18)%nat
           && (negb (c =? 48)%N || (List.length ds =? 1)%nat)
        then Some (PyInt (digits_value ds), r') else None
      else
        match lit_keyword "None" PyNone s with
        | Some res => Some res
        | None =>
            match lit_keyword "True" (PyBool true) s with
            | Some res => Some res
            | None => lit_keyword "False" (PyBool false) s
            end
        end
  end.

Fixpoint skip_blanks (s : str) : str :=
  match s with
  | c :: s' => if (c =? 32)%N then skip_blanks s' else s
  | [] => []
  end.

(** The items of a display up to its closing bracket [close]; [s] starts
    at an item. *)
Fixpoint lit_items (fuel : nat) (close : char) (acc : list pyval) (s : str)
  : option (list pyval * str) :=
  match fuel with
  | O => None
  | S fuel' =>
      match lit_atom s with
      | Some (v, r) =>
          match skip_blanks r with
          | c :: r' =>
              if (c =? close)%N then Some (rev (v :: acc), r')
              else if (c =? 44)%N
              then lit_items fuel' close (v :: acc) (skip_blanks r')
              else None
          | [] => None
          end
      | None => None
      end
  end.

Definition lit_display (close : char) (r : str) : option (list pyval * str) :=
  match skip_blanks r with
  | c :: r' =>
      if (c =? close)%N then Some ([], r')
      else lit_items (List.length r) close [] (c :: r')
  | [] => None
  end.

(** An item of a mapping display: an atom or a flat list or tuple. *)
Definition lit_value (s : str) : option (pyval * str) :=
  match s with
  | [] => None
  | c :: r =>
      if (c =? 91)%N then
        match lit_display 93%N r with
        | Some (l, r') => Some (PyList l, r')
        | None => None
        end
      else if (c =? 40)%N then
        match lit_display 41%N r with
        | Some (l, r') =>
            match l with
            | [_] => None
            | _ => Some (PyTuple l, r')
            end
        | None => None
        end
      else lit_atom s
  end.

(** The members of a mapping display up to its closing brace; [s] starts
    at a key, which is a quoted string. *)
Fixpoint lit_members (fuel : nat) (acc : list (str * pyval)) (s : str)
  : option (list (str * pyval) * str) :=
  match fuel with
  | O => None
  | S fuel' =>
      match lit_atom s with
      | Some (PyStr k, r) =>
          match skip_blanks r with
          | c :: r1 =>
              if (c =? 58)%N then
                match lit_value (skip_blanks r1) with
                | Some (v, r2) =>
                    match skip_blanks r2 with
                    | c1 :: r3 =>
                        if (c1 =? RBRACE)%N
                        then Some (dict_of_pairs (rev ((k, v) :: acc)), r3)
                        else if (c1 =? 44)%N
                        then lit_members fuel' ((k, v) :: acc) (skip_blanks r3)
                        else None
                    | [] => None
                    end
                | None => None
                end
              else None
          | [] => None
          end
      | _ => None
      end
  end.

(** The value of a text of the fragment; [None] outside the fragment. *)
Definition literal_fragment (s : str) : option pyval :=
  match s with
  | [] => None
  | c :: r =>
      if (c =? LBRACE)%N then
        match skip_blanks r with
        | c1 :: r1 =>
            if (c1 =? RBRACE)%N then
              match r1 with
              | [] => Some (PyDict [])
              | _ :: _ => None
              end
            else
              match lit_members (List.length r) [] (c1 :: r1) with
              | Some (d, []) => Some (PyDict d)
              | _ => None
              end
        | [] => None
        end
      else
        match lit_value s with
        | Some (v, []) => Some v
        | _ => None
        end
  end.

(** ** The world outside the repository *)

(** What [requests.post] hands back: the status, the body text, and the
    outcome of [response.json()]. *)
Record response : Type := Response {
  status_code : Z;
  text : str;
  json : result pyval
}.

Record World : Type := {
  (** [os.environ.get("OPENROUTER_API_KEY")] *)
  OPENROUTER_API_KEY : option str;
  (** [requests.post(url, headers=..., json=...)] *)
  requests_post : str -> pyval -> pyval -> result response;
  (** [ast.literal_eval] on a text outside [literal_fragment] *)
  literal_eval_rest : str -> result pyval;
  (** the exception, if any, that [jsonify] raises on a value outside
      [plain_body]: RecursionError when the value nests more containers
      than the interpreter has levels left, ValueError on an integer
      beyond its limit of digits *)
  jsonify_raises : pyval -> option exn
}.

Definition literal_eval (w : World) (s : str) : result pyval :=
  match literal_fragment s with
  | Some v => Ok v
  | None => literal_eval_rest w s
  end.

(** ** Computations with a call trace *)

Inductive call : Type :=
| Call_analyze_with_mistral (legal_text : str)
| Call_requests_post (url : str) (headers payload : pyval)
| Call_json_loads (arg : pyval)
| Call_literal_eval (arg : str).

Definition M (A : Type) : Type := (list call * result A)%type.

Definition ret {A} (a : A) : M A := ([], Ok a).

Definition bind {A B} (m : M A) (f : A -> M B) : M B :=
  match snd m with
  | Ok a => (fst m ++ fst (f a), snd (f a))
  | Raise e => (fst m, Raise e)
  end.

Definition lift {A} (r : result A) : M A := ([], r).

Definition traced {A} (c : call) (r : result A) : M A := ([c], r).

(** [try: m  except Exception as e: h e] *)
Definition try_except {A} (m : M A) (h : exn -> M A) : M A :=
  match snd m with
  | Ok a => m
  | Raise e => (fst m ++ fst (h e), snd (h e))
  end.

Notation "x <- m ;; k" := (bind m (fun x => k))
  (at level 61, m at next level, right associativity).

Definition trace_of {A} (m : M A) : list call := fst m.
Definition outcome {A} (m : M A) : result A := snd m.

(** ** extract_json (index.py, lines 144-167) *)

Definition GOOD : str := u "good_clausess".
Definition BAD : str := u "bad_clausess".
Definition ERROR : str := u "error".

(** The mapping returned when extraction fails (lines 163-167). *)
Definition FALLBACK : pyval :=
  PyDict [(GOOD, PyList []); (BAD, PyList []);
          (ERROR, PyStr (u "Could not extract valid JSON from the model response."))].

(** [re.sub(r"```(?:json)?", "", text)] on any value. *)
Definition re_sub_fence_val (v : pyval) : result str :=
  match v with
  | PyStr s => Ok (re_sub_fence s)
  | _ => Raise (Exn TypeError
                  (u "expected string or bytes-like object, got '"
                     ++ type_name v ++ u "'"))
  end.

(** [match.group().replace('\n', ' ').replace('\r', '')] *)
Definition cleaned_span (span : str) : str :=
  replace_char CR [] (replace_char NL [SP] span).

Definition extract_json_body (w : World) (text : pyval) : M pyval :=
  text1 <- lift (re_sub_fence_val text) ;;
  let text2 := strip text1 in
  match re_search_braces text2 with
  | Some span =>
      let cleaned := cleaned_span span in
      traced (Call_json_loads (PyStr cleaned)) (json_loads (PyStr cleaned))
  | None =>
      traced (Call_literal_eval text2) (literal_eval w text2)
  end.

Definition extract_json (w : World) (text : pyval) : M pyval :=
  try_except (extract_json_body w text) (fun _ => ret FALLBACK).

(** ** analyze_with_mistral (index.py, lines 55-142) *)

Definition OPENROUTER_API_URL : str :=
  u "https://openrouter.ai/api/v1/chat/completions".

Definition str_of_Z (z : Z) : str := u (NilZero.string_of_int (Z.to_int z)).

(** f"Bearer {OPENROUTER_API_KEY}" *)
Definition headers (w : World) : pyval :=
  PyDict [(u "Authorization",
           PyStr (u "Bearer " ++ match OPENROUTER_API_KEY w with
                                 | Some k => k
                                 | None => u "None"
                                 end));
          (u "Content-Type", PyStr (u "application/json"))].

Definition system_message : str :=
  u "You are a legal expert who analyzes contract clauses.".

Definition user_message (legal_text : str) : str :=
  [NL]
  ++ jq "        Analyze the following legal text and categorize each clause as either 'good' or 'bad' for a typical contract participant." ++ [NL]
  ++ u "        Good clauses are those that are fair, balanced, and protect both parties' interests." ++ [NL]
  ++ u "        Bad clauses are those that are one-sided, potentially exploitative, or have hidden implications." ++ [NL]
  ++ u "        " ++ [NL]
  ++ u "        Format your response as JSON with exactly two keys:" ++ [NL]
  ++ jq "        1. 'good_clausess': A list of strings, where each string is a good clause" ++ [NL]
  ++ jq "        2. 'bad_clausess': A list of strings, where each string is a bad clause" ++ [NL]
  ++ u "        " ++ [NL]
  ++ u "        Respond only with the JSON object, no additional text or explanation." ++ [NL]
  ++ u "        " ++ [NL]
  ++ u "        Legal text to analyze:" ++ [NL]
  ++ u "        " ++ legal_text ++ [NL]
  ++ u "        ".

Definition payload (legal_text : str) : pyval :=
  PyDict [(u "model", PyStr (u "google/gemini-2.5-pro-exp-03-25:free"));
          (u "messages",
           PyList [PyDict [(u "role", PyStr (u "system"));
                           (u "content", PyStr system_message)];
                   PyDict [(u "role", PyStr (u "user"));
                           (u "content", PyStr (user_message legal_text))]]);
          (u "temperature", PyFloat (u "0.3"))].

(** The degraded mapping every failure path of the pipeline builds. *)
Definition error_mapping (msg : str) : pyval :=
  PyDict [(ERROR, PyStr msg); (GOOD, PyList []); (BAD, PyList [])].

(** [not OPENROUTER_API_KEY] *)
Definition key_missing (w : World) : bool :=
  match OPENROUTER_API_KEY w with
  | Some (_ :: _) => false
  | _ => true
  end.

(** [response_data["choices"][0]["message"]["content"]] (line 108) *)
Definition choices_0_message_content (response_data : pyval) : result pyval :=
  rbind (getitem_str response_data (u "choices")) (fun choices =>
  rbind (getitem_0 choices) (fun choice =>
  rbind (getitem_str choice (u "message")) (fun message =>
  getitem_str message (u "content")))).

(** The two-key mapping of lines 117-120 and of lines 122-125. *)
Definition clause_mapping (result : pyval) : M pyval :=
  g <- lift (py_get result GOOD (PyList [])) ;;
  b <- lift (py_get result BAD (PyList [])) ;;
  ret (PyDict [(GOOD, g); (BAD, b)]).

(** Lines 115-125: the key check and the mapping returned on either side. *)
Definition ensure_keys (result : pyval) : M pyval :=
  has_good <- lift (py_in GOOD result) ;;
  missing <- (if negb has_good then ret true
              else has_bad <- lift (py_in BAD result) ;; ret (negb has_bad)) ;;
  if missing : bool then clause_mapping result
  else clause_mapping result.

(** Lines 111-125: extraction of the reply and what follows it. *)
Definition parse_reply (w : World) (response_content : pyval) : M pyval :=
  json_text <- extract_json w response_content ;;
  result <- (if isinstance_dict json_text then ret json_text
             else traced (Call_json_loads json_text) (json_loads json_text)) ;;
  ensure_keys result.

(** The body of the [try] (lines 66-132). *)
Definition analyze_with_mistral_body (w : World) (legal_text : str) : M pyval :=
  if key_missing w then
    ret (error_mapping (u "OpenRouter API key not configured"))
  else
    let pl := payload legal_text in
    resp <- traced (Call_requests_post OPENROUTER_API_URL (headers w) pl)
                   (requests_post w OPENROUTER_API_URL (headers w) pl) ;;
    if (status_code resp =? 200)%Z then
      response_data <- lift (json resp) ;;
      response_content <- lift (choices_0_message_content response_data) ;;
      parse_reply w response_content
    else
      ret (error_mapping (u "API request failed: " ++ str_of_Z (status_code resp))).

(** The three [except] clauses of lines 134-142, tried in order. *)
Definition analyze_with_mistral_handler (e : exn) : M pyval :=
  if is_RequestException e then
    ret (error_mapping (u "Request error: " ++ exn_str e))
  else if is_JSONDecodeError e then
    ret (error_mapping (u "Failed to parse AI response"))
  else
    ret (error_mapping (u "Analysis error: " ++ exn_str e)).

Definition analyze_with_mistral (w : World) (legal_text : str) : M pyval :=
  bind (traced (Call_analyze_with_mistral legal_text) (Ok tt)) (fun _ =>
  try_except (analyze_with_mistral_body w legal_text)
             analyze_with_mistral_handler).

(** ** analyze_clauses (index.py, lines 26-53) *)

Definition LEGAL_TEXT : str := u "legal_text".

(** An HTTP answer: the value handed to [jsonify] and the status. *)
Definition http_response : Type := (pyval * Z)%type.

Definition MISSING_LEGAL_TEXT : http_response :=
  (PyDict [(ERROR, PyStr (u "Missing 'legal_text' in request body"))], 400%Z).

Definition INVALID_LEGAL_TEXT : http_response :=
  (PyDict [(ERROR, PyStr (u "Invalid or empty legal text provided"))], 400%Z).

(** Values every encoder serialises: None, booleans, text, and lists and
    mappings of them nested at most [n] deep. *)
Fixpoint plain_body (n : nat) (v : pyval) : bool :=
  match v with
  | PyNone | PyBool _ | PyStr _ => true
  | PyList l =>
      match n with
      | O => false
      | S n' => forallb (plain_body n') l
      end
  | PyDict d =>
      match n with
      | O => false
      | S n' => forallb (fun kv => match kv with (_, x) => plain_body n' x end) d
      end
  | _ => false
  end.

(** [jsonify(v)]: the value as the body of the answer, or the exception of
    the encoder.  The mappings the code builds itself are nested two deep
    at most and always serialise; on any other value the world says
    whether the encoder raises. *)
Definition jsonify (w : World) (v : pyval) : result pyval :=
  if plain_body 2 v then Ok v
  else match jsonify_raises w v with
       | Some e => Raise e
       | None => Ok v
       end.

Definition analyze_clauses_body (w : World) (get_json : result pyval)
  : M http_response :=
  data <- lift get_json ;;
  missing <- (if negb (truthy data) then ret true
              else has <- lift (py_in LEGAL_TEXT data) ;; ret (negb has)) ;;
  if missing : bool then
    body <- lift (jsonify w (fst MISSING_LEGAL_TEXT)) ;;
    ret (body, 400%Z)
  else
    legal_text <- lift (getitem_str data LEGAL_TEXT) ;;
    match legal_text with
    | PyStr s =>
        if negb (truthy legal_text) || str_eqb (strip s) []
        then
          body <- lift (jsonify w (fst INVALID_LEGAL_TEXT)) ;;
          ret (body, 400%Z)
        else
          analysis_result <- analyze_with_mistral w s ;;
          body <- lift (jsonify w analysis_result) ;;
          ret (body, 200%Z)
    | _ =>
        body <- lift (jsonify w (fst INVALID_LEGAL_TEXT)) ;;
        ret (body, 400%Z)
    end.

Definition analyze_clauses (w : World) (get_json : result pyval)
  : M http_response :=
  try_except (analyze_clauses_body w get_json)
    (fun e =>
       body <- lift (jsonify w (PyDict [(ERROR, PyStr (u "Internal server error: "
                                                        ++ exn_str e))])) ;;
       ret (body, 500%Z)).

(** *** The request as the framework reads it *)

(** A request: whether its Content-Type announces JSON, and its body as
    text.  A request without body has the empty text. *)
Record request : Type := Request {
  is_json : bool;
  get_data : str
}.

(** [request.get_json()] with its default arguments, as Flask 2.1 and
    later have it: without a JSON Content-Type it raises
    UnsupportedMediaType; on a body that does not decode (the empty body
    of a request sent without one, for a start) it raises BadRequest, in
    every version.  Both are subclasses of Exception; [exn_str] is the text
    [str(e)] of the framework outside debug mode. *)
Definition get_json (r : request) : result pyval :=
  if negb (is_json r) then
    Raise (Exn (OtherException (u "UnsupportedMediaType"))
               (u "415 Unsupported Media Type: Did not attempt to load JSON data because the request Content-Type was not 'application/json'."))
  else
    match json_loads_str (get_data r) with
    | Ok v => Ok v
    | Raise _ =>
        Raise (Exn (OtherException (u "BadRequest"))
                   (u "400 Bad Request: The browser (or proxy) sent a request that this server could not understand."))
    end.

(** ** Auxiliary definitions of the statements *)

(** What a parser outcome becomes under the [except] of the extractor. *)
Definition or_fallback (r : result pyval) : pyval :=
  match r with
  | Ok v => v
  | Raise _ => FALLBACK
  end.

(** The text the two parsers are given: fences removed, then stripped. *)
Definition stripped_text (s : str) : str := strip (re_sub_fence s).


(** A trace records an attempt of the literal evaluator. *)
Definition literal_parse_attempted (t : list call) : bool :=
  existsb (fun c => match c with Call_literal_eval _ => true | _ => false end) t.

(** A trace records an invocation of the pipeline. *)
Definition pipeline_invoked (t : list call) : bool :=
  existsb (fun c => match c with Call_analyze_with_mistral _ => true | _ => false end) t.

(** The cleaning of the brace span as the specification words it: every
    newline and every carriage return becomes a space. *)
Definition collapse_to_spaces (span : str) : str :=
  map (fun c => if ((c =? NL) || (c =? CR))%N then SP else c) span.

(** The cleaning of the brace span in one pass: a newline becomes a space,
    a carriage return disappears. *)
Definition clean_one_pass (span : str) : str :=
  flat_map (fun c => if (c =? NL)%N then [SP]
                     else if (c =? CR)%N then [] else [c]) span.

(** *** Worlds of the examples *)

(** An evaluator outcome for the texts outside the fragment: a syntax
    error on each. *)
Definition reject_rest (s : str) : result pyval :=
  Raise (Exn SyntaxError (u "invalid syntax")).

(** No credential, no provider. *)
Definition unconfigured_world : World := {|
  OPENROUTER_API_KEY := None;
  requests_post := fun _ _ _ => Raise (Exn RequestException (u "connection refused"));
  literal_eval_rest := reject_rest;
  jsonify_raises := fun _ => None
|}.

(** The body of a provider answer whose first choice carries [content]. *)
Definition completion (content : pyval) : pyval :=
  PyDict [(u "choices",
           PyList [PyDict [(u "message",
                            PyDict [(u "role", PyStr (u "assistant"));
                                    (u "content", content)])]])].

(** A configured credential and a provider that answers every request
    with status [status] and the JSON body [body]. *)
Definition answering_world (status : Z) (body : pyval) : World := {|
  OPENROUTER_API_KEY := Some (u "sk-or-test");
  requests_post := fun _ _ _ => Ok (Response status [] (Ok body));
  literal_eval_rest := reject_rest;
  jsonify_raises := fun _ => None
|}.

(** *** Texts of the examples *)

Definition prose_wrapped : str :=
  u "Here is the result: " ++ jq "{'good_clauses': [], 'bad_clauses': ['x']}"
    ++ u " Thanks!".

Definition fenced : str :=
  u "```json" ++ [NL] ++ jq "{'good_clauses':['a'],'bad_clauses':['b']}"
    ++ [NL] ++ u "```".

(** A Python dict display with single-quoted keys: no JSON. *)
Definition single_quoted : str :=
  u "{'good_clausess': ['a'], 'bad_clausess': []}".

(** A clause that holds a carriage return and a newline. *)
Definition crlf_clause : str :=
  jq "{'good_clausess': ['a" ++ [CR; NL] ++ jq "b'], 'bad_clausess': []}".

(** A clause that holds a lone carriage return. *)
Definition cr_clause : str :=
  jq "{'good_clausess': ['a" ++ [CR] ++ jq "b'], 'bad_clausess': []}".

(** A clause that holds a fence marker. *)
Definition backtick_clause : str :=
  jq "{'good_clausess': ['run ```json here'], 'bad_clausess': []}".

(** The marker of a code fence, and the text after a marker at the head of
    [s], a directly following [json] included. *)
Definition FENCE : str := u "```".

Definition after_fence (s : str) : str :=
  let r := skipn 3 s in
  if starts_with (u "json") r then skipn 4 r else r.

(** *** The pipeline, path by path *)

(** [d.get(k, [])] *)
Definition get_or_empty (k : str) (d : list (str * pyval)) : pyval :=
  match dict_get k d with
  | Some v => v
  | None => PyList []
  end.

(** The mapping the pipeline builds from the mapping [d] of the reply. *)
Definition two_keys (d : list (str * pyval)) : pyval :=
  PyDict [(GOOD, get_or_empty GOOD d); (BAD, get_or_empty BAD d)].

(** The value named [result] on line 112, traces aside. *)
Definition reply_result (w : World) (response_content : pyval) : result pyval :=
  rbind (outcome (extract_json w response_content)) (fun json_text =>
  if isinstance_dict json_text then Ok json_text else json_loads json_text).

(** The [error] text the [except] clauses of the pipeline give to [e]. *)
Definition handler_message (e : exn) : str :=
  if is_RequestException e then u "Request error: " ++ exn_str e
  else if is_JSONDecodeError e then u "Failed to parse AI response"
  else u "Analysis error: " ++ exn_str e.

(** The [error] text of the pipeline for an exception that is no
    RequestException: lines 136-142. *)
Definition reported_error (e : exn) : str :=
  if is_JSONDecodeError e then u "Failed to parse AI response"
  else u "Analysis error: " ++ exn_str e.

(** None, a boolean, a number, a list or a tuple. *)
Definition not_text_nor_mapping (v : pyval) : bool :=
  match v with
  | PyNone | PyBool _ | PyInt _ | PyFloat _ | PyList _ | PyTuple _ => true
  | _ => false
  end.

(** [g] is bound to a clause key by the pipeline when the mapping of the
    reply binds the key to [o]: the list of the reply, the empty list
    when the reply has no such key.  Nothing is said when the reply binds
    the key to a value that is no list. *)
Definition clause_list_of (o : option pyval) (g : pyval) : Prop :=
  match o with
  | None => g = PyList []
  | Some (PyList l) => g = PyList l
  | Some _ => True
  end.

(** An exception neither of the two special classes of the pipeline. *)
Definition plain_exception (e : exn) : Prop :=
  is_RequestException e = false /\ is_JSONDecodeError e = false.

(** The provider was asked and answered with status 200 and a body that
    decodes to [response_data]. *)
Definition answered_200 (w : World) (legal_text : str) (response_data : pyval)
  : Prop :=
  key_missing w = false
  /\ exists resp,
       requests_post w OPENROUTER_API_URL (headers w) (payload legal_text) = Ok resp
       /\ status_code resp = 200%Z
       /\ json resp = Ok response_data.

(** The trace of a pipeline run that stops right after the provider call. *)
Definition trace_until_post (w : World) (legal_text : str) : list call :=
  [Call_analyze_with_mistral legal_text;
   Call_requests_post OPENROUTER_API_URL (headers w) (payload legal_text)].

(** Bodies that lack the shape of a completion: no [choices], an empty
    [choices] list, a first choice without [message], a message without
    [content]. *)
Inductive lacks_reply_shape : pyval -> Prop :=
| lacks_choices d :
    dict_get (u "choices") d = None ->
    lacks_reply_shape (PyDict d)
| empty_choices d :
    dict_get (u "choices") d = Some (PyList []) ->
    lacks_reply_shape (PyDict d)
| lacks_message d c rest :
    dict_get (u "choices") d = Some (PyList (PyDict c :: rest)) ->
    dict_get (u "message") c = None ->
    lacks_reply_shape (PyDict d)
| lacks_content d c rest m :
    dict_get (u "choices") d = Some (PyList (PyDict c :: rest)) ->
    dict_get (u "message") c = Some (PyDict m) ->
    dict_get (u "content") m = None ->
    lacks_reply_shape (PyDict d).

(** A mapping binds [k] to a sequence. *)
Definition binds_sequence (k : str) (v : pyval) : bool :=
  match v with
  | PyDict d =>
      match dict_get k d with
      | Some (PyList _) | Some (PyTuple _) => true
      | _ => false
      end
  | _ => false
  end.

(** A mapping has the key [k]. *)
Definition has_key (k : str) (v : pyval) : bool :=
  match v with
  | PyDict d => match dict_get k d with Some _ => true | None => false end
  | _ => false
  end.

(** *** Requests the handler turns down *)

(** The decoded request body [data] is turned down with the answer [r]:
    the body is the JSON null or has no [legal_text], or [legal_text] is
    not a string or is blank. *)
Inductive rejected : pyval -> http_response -> Prop :=
| rejected_body_null :
    rejected PyNone MISSING_LEGAL_TEXT
| rejected_key_absent d :
    dict_get LEGAL_TEXT d = None ->
    rejected (PyDict d) MISSING_LEGAL_TEXT
| rejected_not_a_string d v :
    dict_get LEGAL_TEXT d = Some v ->
    isinstance_str v = false ->
    rejected (PyDict d) INVALID_LEGAL_TEXT
| rejected_blank d s :
    dict_get LEGAL_TEXT d = Some (PyStr s) ->
    strip s = [] ->
    rejected (PyDict d) INVALID_LEGAL_TEXT.

(** *** Replies of the examples *)

Definition null_clauses_reply : pyval :=
  PyStr (jq "{'good_clausess': null, 'bad_clausess': []}").

Definition braces_no_json_reply : pyval :=
  PyStr (u "Sorry, I cannot help with {that}.").

Definition no_json_reply : pyval := PyStr (u "no json here").

Definition quoted_word_reply : pyval := PyStr (u "'hello'").

Definition list_reply : pyval := PyStr (u "[1, 2]").

Definition sample_text : str := u "The tenant pays all costs.".

(** The outcome of a decoder is a value or a [JSONDecodeError]. *)
Definition decode_error_only {A} (r : result A) : bool :=
  match r with
  | Raise e => match exn_class_of e with JSONDecodeError => true | _ => false end
  | Ok _ => true
  end.

(** ** Auxiliary definitions of the further properties *)

(** Every character of a text is white space. *)
Definition all_space (s : str) : bool := forallb isspace s.

(** The body of a 400 or 500 answer: a mapping with the one key [error]. *)
Definition error_only (msg : str) : pyval := PyDict [(ERROR, PyStr msg)].

(** A trace records a call of the provider. *)
Definition provider_called (t : list call) : bool :=
  existsb (fun c => match c with Call_requests_post _ _ _ => true | _ => false end) t.

(** A call of one of the two parsers. *)
Definition is_parser_call (c : call) : bool :=
  match c with
  | Call_json_loads _ | Call_literal_eval _ => true
  | _ => false
  end.

(** The characters a fence marker with its tag is made of: the backtick
    and the letters j, s, o, n. *)
Definition fence_letter (c : char) : bool :=
  ((c =? BACKTICK) || (c =? 106) || (c =? 115) || (c =? 111) || (c =? 110))%N.

(** A text with the fence characters taken out. *)
Definition without_fence_letters (s : str) : str :=
  filter (fun c => negb (fence_letter c)) s.
(** * Properties *)

(** ** The decoder on an example *)

Example json_loads_ex1 :
  json_loads_str (jq "{'a': [1, -2.5e3, null, true], 'b': {'c': 'x\u00e9\n'}, 'a': 7}")
  = Ok (PyDict [(u "a", PyInt 7);
                (u "b", PyDict [(u "c", PyStr [120; 233; 10]%N)])]).
Proof. vm_compute. reflexivity. Qed.

(** ** The decoder: consumption of input and fuel *)

Lemma skip_ws_length (s : str) : (List.length (skip_ws s) <= List.length s)%nat.
Proof.
  induction s as [| c s IH]; [apply le_n |].
  cbn [skip_ws]. destruct (json_ws c); simpl; lia.
Qed.

Lemma hex4_length (s r : str) (n : N) :
  hex4 s = Some (n, r) -> List.length s = (4 + List.length r)%nat.
Proof.
  unfold hex4. intros H.
  destruct s as [| a [| b [| c [| d t]]]]; try discriminate.
  destruct (hex_digit a), (hex_digit b), (hex_digit c), (hex_digit d);
    try discriminate.
  inversion H; subst. reflexivity.
Qed.

Lemma scanstring_aux_shrinks (fuel : nat) (acc s k r : str) :
  scanstring_aux fuel acc s = Ok (k, r) -> (List.length r < List.length s)%nat.
Proof.
  revert acc s. induction fuel as [| fuel IH]; intros acc s H; [discriminate |].
  cbn [scanstring_aux] in H.
  destruct s as [| c s1]; [discriminate |].
  destruct (c =? DQ)%N.
  { inversion H; subst. simpl. lia. }
  destruct (c =? BACKSLASH)%N.
  - destruct s1 as [| e s2]; [discriminate |].
    destruct (e =? 117)%N.
    + destruct (hex4 s2) as [[uni r2] |] eqn:Hhex; [| discriminate].
      apply hex4_length in Hhex.
      destruct r2 as [| x r2']; [discriminate |].
      destruct (is_high_surrogate uni && (7 <=? List.length (x :: r2'))%nat
                && starts_with [BACKSLASH; 117%N] (x :: r2')).
      * destruct (hex4 (skipn 2 (x :: r2'))) as [[uni2 r3] |] eqn:Hhex2;
          [| discriminate].
        apply hex4_length in Hhex2.
        assert (List.length (skipn 2 (x :: r2')) <= List.length (x :: r2'))%nat
          by (rewrite length_skipn; lia).
        destruct (is_low_surrogate uni2); apply IH in H; simpl in *; lia.
      * apply IH in H. simpl in *. lia.
    + destruct (backslash_table e); [| discriminate].
      apply IH in H. simpl in *. lia.
  - destruct (c <? 32)%N; [discriminate |].
    apply IH in H. simpl in *. lia.
Qed.

Lemma scanstring_aux_decode_error (fuel : nat) (acc s : str) :
  decode_error_only (scanstring_aux fuel acc s) = true.
Proof.
  revert acc s. induction fuel as [| fuel IH]; intros acc s; [reflexivity |].
  cbn [scanstring_aux].
  repeat match goal with
         | |- decode_error_only (scanstring_aux fuel _ _) = true => apply IH
         | |- decode_error_only (match ?x with _ => _ end) = true => destruct x
         | |- decode_error_only (if ?x then _ else _) = true => destruct x
         | |- _ => reflexivity
         end.
Qed.

Lemma span_digits_length (s : str) :
  (List.length (snd (span_digits s)) <= List.length s)%nat.
Proof.
  induction s as [| c s IH]; [apply le_n |].
  cbn [span_digits]. destruct (is_digit c); [| apply le_n].
  destruct (span_digits s). simpl in *. lia.
Qed.

Lemma span_digits_digit (c : char) (s : str) :
  is_digit c = true ->
  (List.length (snd (span_digits (c :: s))) <= List.length s)%nat.
Proof.
  intros H. cbn [span_digits]. rewrite H.
  pose proof (span_digits_length s). destruct (span_digits s). simpl in *. lia.
Qed.

Lemma match_number_shrinks (s r : str) (v : pyval) :
  match_number s = Some (v, r) -> (List.length r < List.length s)%nat.
Proof.
  unfold match_number. intros H.
  set (p := match s with
            | c :: r0 => if (c =? 45)%N then (true, r0) else (false, s)
            | [] => (false, s)
            end) in H.
  assert (Hp : (List.length (snd p) <= List.length s)%nat).
  { subst p. destruct s as [| c s']; [apply le_n |].
    destruct (c =? 45)%N; simpl; lia. }
  destruct p as [neg s1]. cbn [snd] in Hp.
  destruct s1 as [| c r1]; [discriminate |].
  destruct (is_digit c) eqn:Hc; [| discriminate].
  set (q := if (c =? 48)%N then ([c], r1) else span_digits (c :: r1)) in H.
  assert (Hq : (List.length (snd q) <= List.length r1)%nat).
  { subst q. destruct (c =? 48)%N; [apply le_n |].
    apply span_digits_digit. exact Hc. }
  destruct q as [ip s2]. cbn [snd] in Hq.
  set (f := match s2 with
            | d :: r2 =>
                if (d =? 46)%N then
                  match span_digits r2 with
                  | ([], _) => ([], s2)
                  | (ds, r3) => (d :: ds, r3)
                  end
                else ([], s2)
            | [] => ([], s2)
            end) in H.
  assert (Hf : (List.length (snd f) <= List.length s2)%nat).
  { subst f. destruct s2 as [| d r2]; [apply le_n |].
    destruct (d =? 46)%N; [| apply le_n].
    pose proof (span_digits_length r2).
    destruct (span_digits r2) as [[| x ds] r3]; simpl in *; lia. }
  destruct f as [frac s3]. cbn [snd] in Hf.
  set (g := match s3 with
            | e :: r3 =>
                if ((e =? 101) || (e =? 69))%N then
                  let (sg, r4) :=
                    match r3 with
                    | g :: r5 =>
                        if ((g =? 43) || (g =? 45))%N then ([g], r5) else ([], r3)
                    | [] => ([], r3)
                    end in
                  match span_digits r4 with
                  | ([], _) => ([], s3)
                  | (ds, r6) => (e :: sg ++ ds, r6)
                  end
                else ([], s3)
            | [] => ([], s3)
            end) in H.
  assert (Hg : (List.length (snd g) <= List.length s3)%nat).
  { subst g. destruct s3 as [| e r3]; [apply le_n |].
    destruct ((e =? 101) || (e =? 69))%N; [| apply le_n].
    destruct r3 as [| g r5].
    - simpl. lia.
    - destruct ((g =? 43) || (g =? 45))%N.
      + pose proof (span_digits_length r5).
        destruct (span_digits r5) as [[| x ds] r6]; simpl in *; lia.
      + pose proof (span_digits_length (g :: r5)).
        destruct (span_digits (g :: r5)) as [[| x ds] r6]; simpl in *; lia. }
  destruct g as [exp s4]. cbn [snd] in Hg.
  destruct frac, exp; inversion H; subst; simpl in *; lia.
Qed.

Ltac case_ws x :=
  let L := fresh "Lws" in
  let E := fresh "Ews" in
  pose proof (skip_ws_length x) as L;
  destruct (skip_ws x) eqn:E.

Lemma skipn_result_shrinks (n : nat) (c : char) (s r : str) (v v' : pyval) :
  (0 < n)%nat ->
  @Ok (pyval * str) (v, skipn n (c :: s)) = Ok (v', r) ->
  (List.length r < List.length (c :: s))%nat.
Proof.
  intros Hn H. assert (Hr : r = skipn n (c :: s)) by congruence.
  rewrite Hr, length_skipn. cbn [List.length]. lia.
Qed.

(** A value that is read consumes input. *)
Lemma scan_shrinks (fuel : nat) :
  (forall s v r, scan_once fuel s = Ok (v, r) ->
                 (List.length r < List.length s)%nat)
  /\ (forall pairs s v r, object_members fuel pairs s = Ok (v, r) ->
                          (List.length r < List.length s)%nat)
  /\ (forall values s v r, array_items fuel values s = Ok (v, r) ->
                           (List.length r < List.length s)%nat).
Proof.
  induction fuel as [| fuel (IHs & IHo & IHa)];
    [repeat split; intros; discriminate |].
  repeat split.
  - intros s v r H. cbn [scan_once] in H.
    destruct s as [| c s1]; [discriminate |].
    destruct (c =? DQ)%N.
    { unfold rbind in H. destruct (scanstring s1) as [[k r1] |] eqn:Hk;
        [| discriminate].
      inversion H; subst. apply scanstring_aux_shrinks in Hk. simpl in *. lia. }
    destruct (c =? LBRACE)%N.
    { case_ws s1; [discriminate |].
      destruct (_ =? RBRACE)%N.
      - inversion H; subst. simpl in *. lia.
      - destruct (_ =? DQ)%N; [| discriminate].
        apply IHo in H. simpl in *. lia. }
    destruct (c =? 91)%N.
    { case_ws s1; [discriminate |].
      destruct (_ =? 93)%N.
      - inversion H; subst. simpl in *. lia.
      - apply IHa in H. simpl in *. lia. }
    destruct (starts_with (u "null") (c :: s1)).
    { apply skipn_result_shrinks in H; [exact H | lia]. }
    destruct (starts_with (u "true") (c :: s1)).
    { apply skipn_result_shrinks in H; [exact H | lia]. }
    destruct (starts_with (u "false") (c :: s1)).
    { apply skipn_result_shrinks in H; [exact H | lia]. }
    destruct (match_number (c :: s1)) as [[v1 r1] |] eqn:Hnum.
    { inversion H; subst. apply match_number_shrinks in Hnum. exact Hnum. }
    destruct (starts_with (u "NaN") (c :: s1)).
    { apply skipn_result_shrinks in H; [exact H | lia]. }
    destruct (starts_with (u "Infinity") (c :: s1)).
    { apply skipn_result_shrinks in H; [exact H | lia]. }
    destruct (starts_with (u "-Infinity") (c :: s1)); [| discriminate].
    apply skipn_result_shrinks in H; [exact H | lia].
  - intros pairs s v r H. cbn [object_members] in H. unfold rbind in H.
    destruct (scanstring s) as [[k r1] |] eqn:Hk; [| discriminate].
    apply scanstring_aux_shrinks in Hk. cbn [fst snd] in H.
    case_ws r1; [discriminate |].
    destruct (_ =? 58)%N; [| discriminate].
    match type of H with
    | context [scan_once fuel (skip_ws ?x)] =>
        pose proof (skip_ws_length x);
        destruct (scan_once fuel (skip_ws x)) as [[v1 r2] |] eqn:Hv;
        [| discriminate]
    end.
    apply IHs in Hv. cbn [fst snd] in H.
    case_ws r2; [discriminate |].
    destruct (_ =? RBRACE)%N.
    { inversion H; subst. simpl in *. lia. }
    destruct (_ =? 44)%N; [| discriminate].
    match type of H with
    | context [skip_ws ?x] => case_ws x; [discriminate |]
    end.
    destruct (_ =? DQ)%N; [| discriminate].
    apply IHo in H. simpl in *. lia.
  - intros values s v r H. cbn [array_items] in H. unfold rbind in H.
    destruct (scan_once fuel s) as [[v1 r1] |] eqn:Hv; [| discriminate].
    apply IHs in Hv. cbn [fst snd] in H.
    case_ws r1; [discriminate |].
    destruct (_ =? 93)%N.
    { inversion H; subst. simpl in *. lia. }
    destruct (_ =? 44)%N; [| discriminate].
    match type of H with
    | context [skip_ws ?x] => pose proof (skip_ws_length x)
    end.
    apply IHa in H. simpl in *. lia.
Qed.

(** With the fuel [json_loads_str] gives, no call runs out of it. *)
Lemma scan_fuel_enough (fuel : nat) :
  (forall s, (2 * List.length s + 1 <= fuel)%nat ->
             decode_error_only (scan_once fuel s) = true)
  /\ (forall pairs s, (2 * List.length s + 2 <= fuel)%nat ->
                      decode_error_only (object_members fuel pairs s) = true)
  /\ (forall values s, (2 * List.length s + 2 <= fuel)%nat ->
                       decode_error_only (array_items fuel values s) = true).
Proof.
  induction fuel as [| fuel (IHs & IHo & IHa)];
    [repeat split; intros; lia |].
  destruct (scan_shrinks fuel) as (Shs & _ & _).
  repeat split.
  - intros s Hfuel. cbn [scan_once].
    destruct s as [| c s1]; [reflexivity |]. cbn [List.length] in Hfuel.
    destruct (c =? DQ)%N.
    { pose proof (scanstring_aux_decode_error (List.length s1) [] s1) as Hk.
      fold (scanstring s1) in Hk.
      destruct (scanstring s1) as [[k r1] |]; [reflexivity | exact Hk]. }
    destruct (c =? LBRACE)%N.
    { case_ws s1; [reflexivity |].
      destruct (_ =? RBRACE)%N; [reflexivity |].
      destruct (_ =? DQ)%N; [| reflexivity].
      apply IHo. simpl in *. lia. }
    destruct (c =? 91)%N.
    { case_ws s1; [reflexivity |].
      destruct (_ =? 93)%N; [reflexivity |].
      apply IHa. simpl in *. lia. }
    repeat match goal with
           | |- decode_error_only (if ?x then _ else _) = true => destruct x
           | |- decode_error_only (match ?x with _ => _ end) = true => destruct x
           | |- _ => reflexivity
           end.
  - intros pairs s Hfuel. cbn [object_members].
    pose proof (scanstring_aux_decode_error (List.length s) [] s) as Hk.
    fold (scanstring s) in Hk.
    destruct (scanstring s) as [[k r1] |] eqn:Hscan; [| exact Hk].
    apply scanstring_aux_shrinks in Hscan. cbn [rbind fst snd].
    case_ws r1; [reflexivity |].
    destruct (_ =? 58)%N; [| reflexivity].
    match goal with
    | |- context [scan_once fuel (skip_ws ?x)] =>
        pose proof (skip_ws_length x) as Lx;
        assert (Hv : decode_error_only (scan_once fuel (skip_ws x)) = true)
          by (apply IHs; simpl in *; lia);
        destruct (scan_once fuel (skip_ws x)) as [[v1 r2] |] eqn:Hval;
        [| exact Hv]
    end.
    apply Shs in Hval. cbn [rbind fst snd].
    case_ws r2; [reflexivity |].
    destruct (_ =? RBRACE)%N; [reflexivity |].
    destruct (_ =? 44)%N; [| reflexivity].
    match goal with
    | |- context [skip_ws ?x] => case_ws x; [reflexivity |]
    end.
    destruct (_ =? DQ)%N; [| reflexivity].
    apply IHo. simpl in *. lia.
  - intros values s Hfuel. cbn [array_items].
    assert (Hv : decode_error_only (scan_once fuel s) = true) by (apply IHs; lia).
    destruct (scan_once fuel s) as [[v1 r1] |] eqn:Hval; [| exact Hv].
    apply Shs in Hval. cbn [rbind fst snd].
    case_ws r1; [reflexivity |].
    destruct (_ =? 93)%N; [reflexivity |].
    destruct (_ =? 44)%N; [| reflexivity].
    match goal with
    | |- context [skip_ws ?x] => pose proof (skip_ws_length x)
    end.
    apply IHa. simpl in *. lia.
Qed.

(** The decoder never runs out of fuel: it returns a value or raises a
    [JSONDecodeError]. *)
Lemma json_loads_str_decode_error (s : str) :
  decode_error_only (json_loads_str s) = true.
Proof.
  unfold json_loads_str.
  destruct (starts_with [65279%N] s); [reflexivity |].
  destruct (scan_fuel_enough (2 * List.length s + 2)) as (Hs & _ & _).
  pose proof (skip_ws_length s) as Hlen.
  assert (Hv : decode_error_only (scan_once (2 * List.length s + 2) (skip_ws s)) = true)
    by (apply Hs; lia).
  destruct (scan_once (2 * List.length s + 2) (skip_ws s)) as [[v r] |];
    [| exact Hv].
  cbn [rbind fst snd]. destruct (skip_ws r); reflexivity.
Qed.

(** What the decoder raises is no exception of the HTTP client. *)
Lemma json_loads_str_no_request_exception (s : str) (e : exn) :
  json_loads_str s = Raise e -> is_RequestException e = false.
Proof.
  intros H. pose proof (json_loads_str_decode_error s) as Hd.
  rewrite H in Hd. cbn [decode_error_only] in Hd.
  unfold is_RequestException.
  destruct (exn_class_of e); try discriminate Hd. reflexivity.
Qed.

(** ** Computations *)

Lemma bind_lift_Ok {A B} (a : A) (f : A -> M B) : bind (lift (Ok a)) f = f a.
Proof. unfold bind, lift; simpl. destruct (f a); reflexivity. Qed.

Lemma bind_ret {A B} (a : A) (f : A -> M B) : bind (ret a) f = f a.
Proof. apply (bind_lift_Ok a f). Qed.

Lemma bind_lift_Raise {A B} (e : exn) (f : A -> M B) :
  bind (lift (Raise e)) f = ([], Raise e).
Proof. reflexivity. Qed.

Lemma bind_traced_Ok {A B} (c : call) (a : A) (f : A -> M B) :
  bind (traced c (Ok a)) f = (c :: trace_of (f a), outcome (f a)).
Proof. reflexivity. Qed.

Lemma bind_traced_Raise {A B} (c : call) (e : exn) (f : A -> M B) :
  bind (traced c (Raise e)) f = ([c], Raise e).
Proof. reflexivity. Qed.

Lemma bind_Ok {A B} (t : list call) (a : A) (f : A -> M B) :
  bind (t, Ok a) f = (t ++ trace_of (f a), outcome (f a)).
Proof. reflexivity. Qed.

Lemma try_except_Ok {A} (t : list call) (a : A) (h : exn -> M A) :
  try_except (t, Ok a) h = (t, Ok a).
Proof. reflexivity. Qed.

Lemma try_except_Raise {A} (t : list call) (e : exn) (h : exn -> M A) :
  try_except (t, Raise e) h = (t ++ trace_of (h e), outcome (h e)).
Proof. reflexivity. Qed.

(** A handler that returns makes the whole [try] return. *)
Lemma try_except_returns {A} (m : M A) (h : exn -> M A) :
  (forall e, exists a, outcome (h e) = Ok a) ->
  exists a, outcome (try_except m h) = Ok a.
Proof.
  intros Hh. destruct m as [t [a | e]].
  - exists a. reflexivity.
  - destruct (Hh e) as [a Ha]. exists a. rewrite try_except_Raise. exact Ha.
Qed.

(** ** The brace span *)

Lemma drop_until_spec (c : char) (s r : str) :
  drop_until c s = Some r ->
  exists pre t, s = pre ++ r /\ r = c :: t /\ ~ In c pre.
Proof.
  revert r. induction s as [| x s IH]; intros r H; [discriminate |].
  cbn [drop_until] in H. destruct (N.eqb_spec x c) as [-> | Hx].
  - inversion H; subst. exists [], s. repeat split. intros [].
  - destruct (IH r H) as (pre & t & -> & -> & Hpre).
    exists (x :: pre), t. repeat split.
    intros [E | Hin]; [exact (Hx E) | exact (Hpre Hin)].
Qed.

Lemma take_through_last_None (c : char) (s : str) :
  take_through_last c s = None -> ~ In c s.
Proof.
  induction s as [| x s IH]; intros H; [intros [] |].
  cbn [take_through_last] in H.
  destruct (take_through_last c s); [discriminate |].
  destruct (N.eqb_spec x c) as [| Hx]; [discriminate |].
  intros [E | Hin]; [exact (Hx E) | exact (IH eq_refl Hin)].
Qed.

Lemma take_through_last_spec (c : char) (s p : str) :
  take_through_last c s = Some p ->
  exists mid post, p = mid ++ [c] /\ s = p ++ post /\ ~ In c post.
Proof.
  revert p. induction s as [| x s IH]; intros p H; [discriminate |].
  cbn [take_through_last] in H.
  destruct (take_through_last c s) as [q |] eqn:Hq.
  - inversion H; subst.
    destruct (IH q eq_refl) as (mid & post & -> & -> & Hpost).
    exists (x :: mid), post. repeat split. exact Hpost.
  - destruct (N.eqb_spec x c) as [-> | Hx]; [| discriminate].
    inversion H; subst. exists [], s. repeat split.
    apply take_through_last_None. exact Hq.
Qed.

(** The span found runs from the first opening brace of the text to its
    last closing brace. *)
Lemma re_search_braces_spec (s span : str) :
  re_search_braces s = Some span ->
  exists pre mid post,
    s = pre ++ span ++ post
    /\ span = LBRACE :: mid ++ [RBRACE]
    /\ ~ In LBRACE pre
    /\ ~ In RBRACE post.
Proof.
  unfold re_search_braces. intros H.
  destruct (drop_until LBRACE s) as [r |] eqn:Hdrop; [| discriminate].
  destruct (drop_until_spec _ _ Hdrop) as (pre & t & -> & -> & Hpre).
  destruct (take_through_last RBRACE t) as [p |] eqn:Htake; [| discriminate].
  inversion H; subst.
  destruct (take_through_last_spec _ _ Htake) as (mid & post & -> & -> & Hpost).
  exists pre, mid, post. repeat split; assumption.
Qed.

(** No span is found only when no opening brace has a closing brace after
    it. *)
Lemma re_search_braces_None (s : str) :
  re_search_braces s = None ->
  forall a b c, s <> a ++ LBRACE :: b ++ RBRACE :: c.
Proof.
  unfold re_search_braces. intros H a b c ->.
  destruct (drop_until LBRACE (a ++ LBRACE :: b ++ RBRACE :: c)) as [r |] eqn:Hdrop.
  - destruct (drop_until_spec _ _ Hdrop) as (pre & t & Heq & -> & Hpre).
    destruct (take_through_last RBRACE t) eqn:Htake; [discriminate |].
    apply take_through_last_None in Htake.
    assert (Hin : In RBRACE t).
    { clear H Hdrop Htake. revert pre Heq Hpre.
      induction a as [| x a IH]; intros pre Heq Hpre.
      - destruct pre as [| y pre].
        + inversion Heq; subst. apply in_or_app. right. left. reflexivity.
        + inversion Heq; subst. exfalso. apply Hpre. left. reflexivity.
      - destruct pre as [| y pre].
        + inversion Heq; subst.
          apply in_or_app. right. right. apply in_or_app. right. left. reflexivity.
        + inversion Heq; subst. apply (IH pre); [assumption |].
          intros Hin. apply Hpre. right. exact Hin. }
    exact (Htake Hin).
  - clear H. induction a as [| x a IH].
    + cbn [app drop_until] in Hdrop. rewrite N.eqb_refl in Hdrop. discriminate.
    + cbn [app drop_until] in Hdrop.
      destruct (x =? LBRACE)%N; [discriminate | exact (IH Hdrop)].
Qed.

(** ** The extractor *)

Lemma extract_json_str (w : World) (s : str) :
  extract_json w (PyStr s) =
  match re_search_braces (stripped_text s) with
  | Some span =>
      ([Call_json_loads (PyStr (cleaned_span span))],
       Ok (or_fallback (json_loads_str (cleaned_span span))))
  | None =>
      ([Call_literal_eval (stripped_text s)],
       Ok (or_fallback (literal_eval w (stripped_text s))))
  end.
Proof.
  unfold extract_json, extract_json_body, stripped_text. simpl re_sub_fence_val.
  rewrite bind_lift_Ok.
  destruct (re_search_braces (strip (re_sub_fence s))) as [span |].
  - simpl json_loads. destruct (json_loads_str (cleaned_span span)); reflexivity.
  - destruct (literal_eval w (strip (re_sub_fence s))); reflexivity.
Qed.

Lemma extract_json_not_str (w : World) (v : pyval) :
  isinstance_str v = false -> extract_json w v = ([], Ok FALLBACK).
Proof. destruct v; simpl; intros H; try discriminate; reflexivity. Qed.

(** The extractor returns on every value. *)
Lemma extract_json_returns (w : World) (v : pyval) :
  exists r, outcome (extract_json w v) = Ok r.
Proof.
  unfold extract_json. apply try_except_returns.
  intros e. exists FALLBACK. reflexivity.
Qed.

(** The outcome of the extractor on text, in terms of the two parsers. *)
Lemma extract_json_outcome (w : World) (s : str) :
  outcome (extract_json w (PyStr s)) =
  Ok (or_fallback
        match re_search_braces (stripped_text s) with
        | Some span => json_loads_str (cleaned_span span)
        | None => literal_eval w (stripped_text s)
        end).
Proof.
  rewrite extract_json_str.
  destruct (re_search_braces (stripped_text s)); reflexivity.
Qed.

(** C5.  For every input, a string or any other value, the extractor
    returns: either the value its body returned, or, when the body raised,
    the fallback mapping with empty clause lists and an error message. *)
Theorem C5_extract_json_never_raises (w : World) (text : pyval) :
  (exists v, outcome (extract_json w text) = Ok v
             /\ (outcome (extract_json_body w text) = Ok v
                 \/ (exists e, outcome (extract_json_body w text) = Raise e)
                    /\ v = FALLBACK))
  /\ FALLBACK =
     PyDict [(u "good_clausess", PyList []); (u "bad_clausess", PyList []);
             (u "error",
              PyStr (u "Could not extract valid JSON from the model response."))].
Proof.
  split; [| reflexivity].
  unfold extract_json.
  destruct (extract_json_body w text) as [t [v | e]] eqn:Hbody.
  - exists v. split; [reflexivity | left; reflexivity].
  - exists FALLBACK. split; [reflexivity | right].
    split; [exists e; reflexivity | reflexivity].
Qed.

(** The literal evaluator is attempted exactly when no brace span is
    found.  With a brace span, the strict JSON parse of the cleaned span is
    the only attempt, and its failure gives the fallback mapping at once. *)
Lemma literal_parse_attempted_iff_no_span (w : World) (s : str) :
  extract_json w (PyStr s) =
    match re_search_braces (stripped_text s) with
    | Some span =>
        ([Call_json_loads (PyStr (cleaned_span span))],
         Ok (or_fallback (json_loads_str (cleaned_span span))))
    | None =>
        ([Call_literal_eval (stripped_text s)],
         Ok (or_fallback (literal_eval w (stripped_text s))))
    end
  /\ literal_parse_attempted (trace_of (extract_json w (PyStr s))) =
     match re_search_braces (stripped_text s) with
     | Some _ => false
     | None => true
     end.
Proof.
  rewrite extract_json_str.
  destruct (re_search_braces (stripped_text s)); split; reflexivity.
Qed.

(** C3 on the code.  The reply is a mapping display with single-quoted
    keys, the text the literal evaluation of line 160 is there for.  A
    brace span is found and its strict parse fails; the literal evaluator
    would turn the stripped text into the mapping; but the failure inside
    [if match:] goes to the [except] clause, so the extractor returns the
    fallback mapping and the literal evaluator is never called. *)
Theorem C3_literal_fallback_is_skipped (w : World) :
  re_search_braces (stripped_text single_quoted) = Some single_quoted
  /\ json_loads_str (cleaned_span single_quoted)
     = Raise (json_error "Expecting property name enclosed in double quotes")
  /\ literal_eval w (stripped_text single_quoted)
     = Ok (PyDict [(GOOD, PyList [PyStr (u "a")]); (BAD, PyList [])])
  /\ extract_json w (PyStr single_quoted)
     = ([Call_json_loads (PyStr single_quoted)], Ok FALLBACK)
  /\ literal_parse_attempted
       (trace_of (extract_json w (PyStr single_quoted))) = false.
Proof.
  assert (Hspan : re_search_braces (stripped_text single_quoted)
                  = Some single_quoted) by (vm_compute; reflexivity).
  assert (Hstrict : json_loads_str (cleaned_span single_quoted)
                    = Raise (json_error
                               "Expecting property name enclosed in double quotes"))
    by (vm_compute; reflexivity).
  assert (Hclean : cleaned_span single_quoted = single_quoted)
    by (vm_compute; reflexivity).
  assert (Hrun : extract_json w (PyStr single_quoted)
                 = ([Call_json_loads (PyStr single_quoted)], Ok FALLBACK)).
  { rewrite extract_json_str, Hspan, Hstrict, Hclean. reflexivity. }
  split; [exact Hspan |]. split; [exact Hstrict |].
  split; [| split; [exact Hrun | rewrite Hrun; reflexivity]].
  unfold literal_eval.
  replace (literal_fragment (stripped_text single_quoted))
    with (Some (PyDict [(GOOD, PyList [PyStr (u "a")]); (BAD, PyList [])]))
    by (vm_compute; reflexivity).
  reflexivity.
Qed.

(** C4.  One JSON object inside prose, or inside a fenced block, is
    recovered: the brace span is the object, and the extractor returns its
    mapping. *)
Theorem C4_embedded_object_extracted (w : World) :
  re_search_braces (stripped_text prose_wrapped)
    = Some (jq "{'good_clauses': [], 'bad_clauses': ['x']}")
  /\ outcome (extract_json w (PyStr prose_wrapped))
     = Ok (PyDict [(u "good_clauses", PyList []);
                   (u "bad_clauses", PyList [PyStr (u "x")])])
  /\ re_search_braces (stripped_text fenced)
     = Some (jq "{'good_clauses':['a'],'bad_clauses':['b']}")
  /\ outcome (extract_json w (PyStr fenced))
     = Ok (PyDict [(u "good_clauses", PyList [PyStr (u "a")]);
                   (u "bad_clauses", PyList [PyStr (u "b")])]).
Proof.
  rewrite !extract_json_outcome.
  repeat split; vm_compute; reflexivity.
Qed.

(** ** Cleaning of the brace span *)

Lemma cleaned_span_one_pass (span : str) : cleaned_span span = clean_one_pass span.
Proof.
  unfold cleaned_span, clean_one_pass, replace_char.
  induction span as [| c r IH]; [reflexivity |].
  cbn [flat_map]. rewrite flat_map_app. f_equal; [| exact IH].
  destruct (c =? NL)%N eqn:Hnl.
  - reflexivity.
  - cbn [flat_map]. rewrite app_nil_r. destruct (c =? CR)%N; reflexivity.
Qed.

Lemma clean_one_pass_no_line_break (span : str) :
  ~ In NL (clean_one_pass span) /\ ~ In CR (clean_one_pass span).
Proof.
  unfold clean_one_pass.
  induction span as [| c r [IHn IHc]]; [split; intros [] |].
  simpl. destruct (c =? NL)%N eqn:Hnl.
  - split; simpl; intros [H | H]; try discriminate; auto.
  - destruct (c =? CR)%N eqn:Hcr.
    + split; simpl; auto.
    + apply N.eqb_neq in Hnl, Hcr.
      split; simpl; intros [H | H]; auto.
Qed.

(** C7, as the code has it.  When a brace span is found, every newline of
    the span becomes a space and every carriage return is deleted; the
    strict JSON parse is then attempted on that text, which holds neither
    character any more. *)
Theorem C7_span_cleaned_before_strict_parse (w : World) (s span : str) :
  re_search_braces (stripped_text s) = Some span ->
  cleaned_span span = clean_one_pass span
  /\ ~ In NL (cleaned_span span)
  /\ ~ In CR (cleaned_span span)
  /\ extract_json w (PyStr s)
     = ([Call_json_loads (PyStr (cleaned_span span))],
        Ok (or_fallback (json_loads_str (cleaned_span span)))).
Proof.
  intros Hspan.
  split; [apply cleaned_span_one_pass |].
  rewrite cleaned_span_one_pass at 1 2.
  destruct (clean_one_pass_no_line_break span) as [Hn Hc].
  repeat split; auto.
  rewrite extract_json_str, Hspan. reflexivity.
Qed.

(** The property above on a clause with a Windows line break. *)
Lemma C7_span_cleaned_witness :
  re_search_braces (stripped_text crlf_clause) = Some crlf_clause
  /\ extract_json unconfigured_world (PyStr crlf_clause)
     = ([Call_json_loads (PyStr (cleaned_span crlf_clause))],
        Ok (or_fallback (json_loads_str (cleaned_span crlf_clause)))).
Proof.
  split; [vm_compute; reflexivity |].
  apply (C7_span_cleaned_before_strict_parse unconfigured_world crlf_clause).
  vm_compute; reflexivity.
Defined.

(** C7, as stated, fails: a carriage return in the span is deleted, not
    turned into a space.  A clause "a", carriage return, "b" comes back as
    "ab", where the stated rule gives "a b". *)
Lemma C7_counterexample :
  re_search_braces (stripped_text cr_clause) = Some cr_clause
  /\ outcome (extract_json unconfigured_world (PyStr cr_clause))
     = Ok (PyDict [(GOOD, PyList [PyStr (u "ab")]); (BAD, PyList [])])
  /\ json_loads_str (collapse_to_spaces cr_clause)
     = Ok (PyDict [(GOOD, PyList [PyStr (u "a b")]); (BAD, PyList [])])
  /\ cleaned_span cr_clause <> collapse_to_spaces cr_clause.
Proof.
  repeat split; try (vm_compute; reflexivity).
  vm_compute. discriminate.
Qed.

(** ** Removal of the fence markers *)

Lemma re_sub_fence_aux_fuel (n m : nat) (s : str) :
  (List.length s <= n)%nat -> (List.length s <= m)%nat ->
  re_sub_fence_aux n s = re_sub_fence_aux m s.
Proof.
  revert m s. induction n as [| n IH]; intros m s Hn Hm.
  - destruct s; [| simpl in Hn; lia]. destruct m; reflexivity.
  - destruct m as [| m].
    + destruct s; [reflexivity | simpl in Hm; lia].
    + cbn [re_sub_fence_aux]. destruct s as [| c s']; [reflexivity |].
      assert (H3 : (List.length (skipn 3 (c :: s')) <= List.length s')%nat).
      { rewrite length_skipn. simpl. lia. }
      assert (H7 : (List.length (skipn 4 (skipn 3 (c :: s'))) <= List.length s')%nat).
      { rewrite length_skipn. lia. }
      simpl in Hn, Hm.
      destruct (starts_with (u "```") (c :: s')).
      * destruct (starts_with (u "json") (skipn 3 (c :: s')));
          apply IH; lia.
      * f_equal. apply IH; lia.
Qed.

Lemma after_fence_shorter (c : char) (s : str) :
  (List.length (after_fence (c :: s)) <= List.length s)%nat.
Proof.
  unfold after_fence.
  assert (H3 : (List.length (skipn 3 (c :: s)) <= List.length s)%nat).
  { rewrite length_skipn. simpl. lia. }
  destruct (starts_with (u "json") (skipn 3 (c :: s))); [| exact H3].
  rewrite length_skipn. lia.
Qed.

(** The substitution, one step at a time. *)
Lemma re_sub_fence_cons (c : char) (s : str) :
  re_sub_fence (c :: s) =
  if starts_with FENCE (c :: s) then re_sub_fence (after_fence (c :: s))
  else c :: re_sub_fence s.
Proof.
  unfold re_sub_fence at 1. cbn [List.length re_sub_fence_aux].
  fold FENCE. destruct (starts_with FENCE (c :: s)).
  - pose proof (after_fence_shorter c s) as Hlen. unfold after_fence in *.
    destruct (starts_with (u "json") (skipn 3 (c :: s)));
      apply re_sub_fence_aux_fuel; lia.
  - reflexivity.
Qed.

Lemma re_sub_fence_nil : re_sub_fence [] = [].
Proof. reflexivity. Qed.

Lemma starts_with_app (p s : str) :
  starts_with p s = true -> exists r, s = p ++ r.
Proof.
  revert s. induction p as [| x p IH]; intros s H.
  - exists s. reflexivity.
  - destruct s as [| y s]; [discriminate |].
    cbn [starts_with] in H. apply andb_true_iff in H as [Hxy Hp].
    apply N.eqb_eq in Hxy. subst y.
    destruct (IH s Hp) as [r ->]. exists r. reflexivity.
Qed.

Lemma starts_with_FENCE_inv (s : str) :
  starts_with FENCE s = true ->
  exists r, s = BACKTICK :: BACKTICK :: BACKTICK :: r.
Proof. intros H. apply starts_with_app in H. exact H. Qed.

(** Closes a goal [starts_with FENCE s = false] when the first three
    characters of [s] are visibly not three backticks. *)
Ltac no_fence_here :=
  match goal with
  | |- starts_with FENCE ?s = false =>
      let E := fresh "E" in
      destruct (starts_with FENCE s) eqn:E; [| reflexivity];
      apply starts_with_FENCE_inv in E; destruct E as [? E];
      try discriminate E; inversion E; subst; congruence
  end.

Lemma starts_with_FENCE_head (c : char) (s : str) :
  c <> BACKTICK -> starts_with FENCE (c :: s) = false.
Proof. intros Hc. no_fence_here. Qed.

(** No text left by the substitution starts with a fence marker. *)
Lemma re_sub_fence_no_fence_head (n : nat) (s : str) :
  (List.length s <= n)%nat -> starts_with FENCE (re_sub_fence s) = false.
Proof.
  revert s. induction n as [| n IH]; intros s Hn.
  - destruct s; [reflexivity | simpl in Hn; lia].
  - destruct s as [| c s1]; [reflexivity |].
    simpl in Hn. rewrite re_sub_fence_cons.
    destruct (starts_with FENCE (c :: s1)) eqn:Hf.
    + apply IH. pose proof (after_fence_shorter c s1). lia.
    + destruct (N.eq_dec c BACKTICK) as [-> | Hc];
        [| apply starts_with_FENCE_head; exact Hc].
      destruct s1 as [| d s2]; [reflexivity |].
      rewrite re_sub_fence_cons.
      destruct (N.eq_dec d BACKTICK) as [-> | Hd].
      * destruct s2 as [| e s3]; [reflexivity |].
        destruct (N.eq_dec e BACKTICK) as [-> | He];
          [vm_compute in Hf; discriminate |].
        assert (H1 : starts_with FENCE (BACKTICK :: e :: s3) = false)
          by no_fence_here.
        rewrite H1, re_sub_fence_cons, (starts_with_FENCE_head s3 He).
        no_fence_here.
      * rewrite (starts_with_FENCE_head s2 Hd). no_fence_here.
Qed.

(** No fence marker occurs in the text left by the substitution. *)
Lemma re_sub_fence_no_fence (s : str) :
  str_contains FENCE (re_sub_fence s) = false.
Proof.
  remember (List.length s) as n eqn:Hn.
  assert (Hle : (List.length s <= n)%nat) by lia. clear Hn.
  revert s Hle. induction n as [| n IH]; intros s Hle.
  - destruct s; [reflexivity | simpl in Hle; lia].
  - destruct s as [| c s1]; [reflexivity |].
    simpl in Hle.
    pose proof (@re_sub_fence_no_fence_head _ (c :: s1) (le_n _)) as Hhead.
    rewrite re_sub_fence_cons in *.
    destruct (starts_with FENCE (c :: s1)).
    + apply IH. pose proof (after_fence_shorter c s1). lia.
    + cbn [str_contains]. rewrite Hhead. simpl. apply IH. lia.
Qed.

(** A text without fence marker is left as it is. *)
Lemma re_sub_fence_fixed (s : str) :
  str_contains FENCE s = false -> re_sub_fence s = s.
Proof.
  induction s as [| c s IH]; [reflexivity |].
  cbn [str_contains]. intros H. apply orb_false_iff in H as [Hh Ht].
  rewrite re_sub_fence_cons, Hh, (IH Ht). reflexivity.
Qed.

Lemma re_sub_fence_idempotent (s : str) :
  re_sub_fence (re_sub_fence s) = re_sub_fence s.
Proof. apply re_sub_fence_fixed, re_sub_fence_no_fence. Qed.

(** C8.  The fence markers are removed by a substitution over the whole
    text: a marker at any position is dropped with a directly following
    [json], no marker is left anywhere in the text, the brace-span search
    and both parsers see only the substituted text, and so a clause that
    holds a marker comes back without it. *)
Theorem C8_fence_removal_is_global (w : World) (s : str) :
  (forall c r, re_sub_fence (c :: r) =
               if starts_with FENCE (c :: r)
               then re_sub_fence (after_fence (c :: r))
               else c :: re_sub_fence r)
  /\ str_contains FENCE (re_sub_fence s) = false
  /\ extract_json w (PyStr s) = extract_json w (PyStr (re_sub_fence s))
  /\ outcome (extract_json w (PyStr backtick_clause))
     = Ok (PyDict [(GOOD, PyList [PyStr (u "run  here")]); (BAD, PyList [])]).
Proof.
  split; [exact re_sub_fence_cons |].
  split; [apply re_sub_fence_no_fence |].
  split.
  - rewrite !extract_json_str. unfold stripped_text.
    rewrite re_sub_fence_idempotent. reflexivity.
  - rewrite extract_json_outcome. vm_compute. reflexivity.
Qed.

(** ** Outcomes of computations *)

Lemma outcome_bind {A B} (m : M A) (f : A -> M B) :
  outcome (bind m f) = rbind (outcome m) (fun a => outcome (f a)).
Proof. destruct m as [t [a | e]]; reflexivity. Qed.

Lemma outcome_try_except {A} (m : M A) (h : exn -> M A) :
  outcome (try_except m h) =
  match outcome m with
  | Ok a => Ok a
  | Raise e => outcome (h e)
  end.
Proof. destruct m as [t [a | e]]; reflexivity. Qed.

Lemma outcome_lift {A} (r : result A) : outcome (lift r) = r.
Proof. reflexivity. Qed.

Lemma outcome_traced {A} (c : call) (r : result A) : outcome (traced c r) = r.
Proof. reflexivity. Qed.

(** ** The pipeline *)

Lemma handler_returns (e : exn) :
  analyze_with_mistral_handler e = ret (error_mapping (handler_message e)).
Proof.
  unfold analyze_with_mistral_handler, handler_message.
  destruct (is_RequestException e); [reflexivity |].
  destruct (is_JSONDecodeError e); reflexivity.
Qed.

Lemma handler_message_plain (e : exn) :
  plain_exception e -> handler_message e = u "Analysis error: " ++ exn_str e.
Proof. intros [H1 H2]. unfold handler_message. rewrite H1, H2. reflexivity. Qed.

Lemma ensure_keys_dict (d : list (str * pyval)) :
  ensure_keys (PyDict d) = ([], Ok (two_keys d)).
Proof.
  unfold ensure_keys, clause_mapping, two_keys, get_or_empty, py_in, py_get.
  destruct (dict_get GOOD d) as [g |]; destruct (dict_get BAD d) as [b |];
    reflexivity.
Qed.

(** On anything but a mapping the key check or the [get] raises. *)
Lemma ensure_keys_not_dict (v : pyval) :
  isinstance_dict v = false ->
  exists e, ensure_keys v = ([], Raise e) /\ plain_exception e.
Proof.
  intros Hv. unfold ensure_keys, clause_mapping.
  destruct v; try discriminate Hv; simpl py_in;
    try (eexists; split; [reflexivity | split; reflexivity]);
    rewrite bind_lift_Ok;
    match goal with
    | |- context [negb ?b] => destruct b
    end; simpl negb; cbv iota;
    try rewrite bind_lift_Ok;
    try match goal with
      | |- context [negb ?b] => destruct b
      end;
    eexists; (split; [reflexivity | split; reflexivity]).
Qed.

Lemma parse_reply_outcome (w : World) (content : pyval) :
  outcome (parse_reply w content) =
  rbind (reply_result w content) (fun r => outcome (ensure_keys r)).
Proof.
  unfold parse_reply, reply_result. rewrite outcome_bind.
  destruct (outcome (extract_json w content)) as [v | e]; [| reflexivity].
  cbn [rbind]. rewrite outcome_bind.
  destruct (isinstance_dict v); [reflexivity |].
  rewrite outcome_traced. reflexivity.
Qed.

(** The outcome of the pipeline once its body is known. *)
Lemma analyze_with_mistral_outcome (w : World) (t : str) :
  outcome (analyze_with_mistral w t) =
  match outcome (analyze_with_mistral_body w t) with
  | Ok v => Ok v
  | Raise e => Ok (error_mapping (handler_message e))
  end.
Proof.
  unfold analyze_with_mistral. rewrite outcome_bind, outcome_traced.
  cbn [rbind]. rewrite outcome_try_except.
  destruct (outcome (analyze_with_mistral_body w t)) as [v | e]; [reflexivity |].
  rewrite handler_returns. reflexivity.
Qed.

(** The body of the pipeline when the provider answered with status 200. *)
Lemma body_outcome_answered (w : World) (t : str) (data : pyval) :
  answered_200 w t data ->
  outcome (analyze_with_mistral_body w t) =
  rbind (choices_0_message_content data) (fun content =>
  outcome (parse_reply w content)).
Proof.
  intros (Hkey & resp & Hpost & Hstatus & Hjson).
  unfold analyze_with_mistral_body. rewrite Hkey. cbv zeta.
  rewrite outcome_bind, outcome_traced, Hpost. cbn [rbind].
  rewrite Hstatus. cbn [Z.eqb Pos.eqb].
  rewrite outcome_bind, outcome_lift, Hjson. cbn [rbind].
  rewrite outcome_bind, outcome_lift. reflexivity.
Qed.

Lemma getitem_str_plain (c : pyval) (k : str) (e : exn) :
  getitem_str c k = Raise e -> plain_exception e.
Proof.
  destruct c; cbn [getitem_str]; try destruct (dict_get k d);
    intros H; inversion H; split; reflexivity.
Qed.

Lemma getitem_0_plain (c : pyval) (e : exn) :
  getitem_0 c = Raise e -> plain_exception e.
Proof.
  destruct c as [| | | | s | l | l |]; cbn [getitem_0];
    try destruct s; try destruct l;
    intros H; inversion H; split; reflexivity.
Qed.

Lemma choices_0_message_content_plain (data : pyval) (e : exn) :
  choices_0_message_content data = Raise e -> plain_exception e.
Proof.
  unfold choices_0_message_content.
  destruct (getitem_str data (u "choices")) as [c |] eqn:H1; cbn [rbind];
    [| intros H; inversion H; subst; eapply getitem_str_plain; exact H1].
  destruct (getitem_0 c) as [c0 |] eqn:H2; cbn [rbind];
    [| intros H; inversion H; subst; eapply getitem_0_plain; exact H2].
  destruct (getitem_str c0 (u "message")) as [m |] eqn:H3; cbn [rbind];
    [| intros H; inversion H; subst; eapply getitem_str_plain; exact H3].
  apply getitem_str_plain.
Qed.

Lemma lacks_reply_shape_raises (data : pyval) :
  lacks_reply_shape data -> exists e, choices_0_message_content data = Raise e.
Proof.
  intros H. unfold choices_0_message_content.
  destruct H as [d H1 | d H1 | d c rest H1 H2 | d c rest m H1 H2 H3];
    cbn [getitem_str rbind]; rewrite H1; cbn [getitem_0 getitem_str rbind];
    try rewrite H2; cbn [getitem_str rbind]; try rewrite H3;
    eexists; reflexivity.
Qed.

(** The body of the pipeline, with its trace, when the provider answered
    with status 200. *)
Lemma body_answered (w : World) (t : str) (data : pyval) :
  answered_200 w t data ->
  analyze_with_mistral_body w t =
  bind (traced (Call_requests_post OPENROUTER_API_URL (headers w) (payload t))
               (Ok data))
       (fun response_data =>
          response_content <- lift (choices_0_message_content response_data) ;;
          parse_reply w response_content).
Proof.
  intros (Hkey & resp & Hpost & Hstatus & Hjson).
  unfold analyze_with_mistral_body. rewrite Hkey. cbv zeta.
  rewrite Hpost, !bind_traced_Ok. cbv beta. rewrite Hstatus.
  cbn [Z.eqb Pos.eqb]. rewrite Hjson, bind_lift_Ok. reflexivity.
Qed.

(** The pipeline when the indexing of line 108 raises [e]. *)
Lemma indexing_failure_caught (w : World) (t : str) (data : pyval) (e : exn) :
  answered_200 w t data ->
  choices_0_message_content data = Raise e ->
  analyze_with_mistral w t =
  (trace_until_post w t, Ok (error_mapping (u "Analysis error: " ++ exn_str e))).
Proof.
  intros Hans Hraise.
  pose proof (choices_0_message_content_plain _ Hraise) as Hplain.
  unfold analyze_with_mistral. rewrite (body_answered Hans).
  rewrite (bind_traced_Ok (B := pyval) (Call_requests_post _ _ _)). cbv beta.
  rewrite Hraise, bind_lift_Raise. cbn [trace_of outcome fst snd].
  rewrite try_except_Raise, handler_returns, (handler_message_plain Hplain).
  reflexivity.
Qed.


Lemma answering_world_answered (body : pyval) (t : str) :
  answered_200 (answering_world 200 body) t body.
Proof.
  split; [reflexivity |].
  exists (Response 200 [] (Ok body)). repeat split; reflexivity.
Qed.


(** Without credential the pipeline returns at once: no provider call. *)
Lemma missing_credential_run (w : World) (t : str) :
  key_missing w = true ->
  analyze_with_mistral w t =
  ([Call_analyze_with_mistral t],
   Ok (error_mapping (u "OpenRouter API key not configured"))).
Proof.
  intros Hkey. unfold analyze_with_mistral, analyze_with_mistral_body.
  rewrite Hkey. reflexivity.
Qed.

(** A provider answer with another status than 200. *)
Lemma provider_status_run (w : World) (t : str) (resp : response) :
  key_missing w = false ->
  requests_post w OPENROUTER_API_URL (headers w) (payload t) = Ok resp ->
  status_code resp <> 200%Z ->
  analyze_with_mistral w t =
  (trace_until_post w t,
   Ok (error_mapping (u "API request failed: " ++ str_of_Z (status_code resp)))).
Proof.
  intros Hkey Hpost Hstatus. apply Z.eqb_neq in Hstatus.
  unfold analyze_with_mistral, analyze_with_mistral_body.
  rewrite Hkey. cbv zeta. rewrite Hpost, !bind_traced_Ok. cbv beta.
  rewrite Hstatus. reflexivity.
Qed.

Example provider_503 :
  outcome (analyze_with_mistral (answering_world 503 PyNone) sample_text)
  = Ok (error_mapping (u "API request failed: 503")).
Proof. vm_compute. reflexivity. Qed.

(** A provider call that raises. *)
Lemma provider_raises_run (w : World) (t : str) (e : exn) :
  key_missing w = false ->
  requests_post w OPENROUTER_API_URL (headers w) (payload t) = Raise e ->
  analyze_with_mistral w t =
  (trace_until_post w t, Ok (error_mapping (handler_message e))).
Proof.
  intros Hkey Hpost.
  unfold analyze_with_mistral, analyze_with_mistral_body.
  rewrite Hkey. cbv zeta. rewrite Hpost, bind_traced_Raise.
  rewrite bind_traced_Ok, try_except_Raise, handler_returns. reflexivity.
Qed.

(** The pipeline on a reply from which a mapping is recovered. *)
Lemma mapping_reply_outcome (w : World) (t : str) (data content : pyval)
      (d : list (str * pyval)) :
  answered_200 w t data ->
  choices_0_message_content data = Ok content ->
  reply_result w content = Ok (PyDict d) ->
  outcome (analyze_with_mistral w t) = Ok (two_keys d).
Proof.
  intros Hans Hcontent Hreply.
  rewrite analyze_with_mistral_outcome, (body_outcome_answered Hans), Hcontent.
  cbn [rbind]. rewrite parse_reply_outcome, Hreply. cbn [rbind].
  rewrite ensure_keys_dict. reflexivity.
Qed.

(** The pipeline on a reply whose decoding on line 112 raises. *)
Lemma failed_reply_outcome (w : World) (t : str) (data content : pyval) (e : exn) :
  answered_200 w t data ->
  choices_0_message_content data = Ok content ->
  reply_result w content = Raise e ->
  outcome (analyze_with_mistral w t) = Ok (error_mapping (handler_message e)).
Proof.
  intros Hans Hcontent Hreply.
  rewrite analyze_with_mistral_outcome, (body_outcome_answered Hans), Hcontent.
  cbn [rbind]. rewrite parse_reply_outcome, Hreply. reflexivity.
Qed.

Lemma has_key_error_mapping (msg : str) :
  has_key GOOD (error_mapping msg) = true /\ has_key BAD (error_mapping msg) = true.
Proof. split; reflexivity. Qed.

Lemma has_key_two_keys (d : list (str * pyval)) :
  has_key GOOD (two_keys d) = true /\ has_key BAD (two_keys d) = true.
Proof. split; reflexivity. Qed.

Lemma clause_list_of_get_or_empty (k : str) (d : list (str * pyval)) :
  clause_list_of (dict_get k d) (get_or_empty k d).
Proof.
  unfold clause_list_of, get_or_empty.
  destruct (dict_get k d) as [v |]; [destruct v |]; auto.
Qed.



(** ** A reply that is no JSON *)

(** When the extractor gives its fallback mapping, the pipeline keeps the
    two empty lists of it and nothing else. *)
Lemma fallback_reply_outcome (w : World) (t : str) (data content : pyval) :
  answered_200 w t data ->
  choices_0_message_content data = Ok content ->
  outcome (extract_json w content) = Ok FALLBACK ->
  outcome (analyze_with_mistral w t) = Ok (PyDict [(GOOD, PyList []); (BAD, PyList [])]).
Proof.
  intros Hans Hcontent Hext.
  apply mapping_reply_outcome
    with (data := data) (content := content)
         (d := [(GOOD, PyList []); (BAD, PyList []);
                (ERROR, PyStr (u "Could not extract valid JSON from the model response."))]);
    try assumption.
  unfold reply_result. rewrite Hext. reflexivity.
Qed.

(** A content that is no string at all, such as null, fails inside the
    extractor and has the same end. *)
Lemma non_string_content_outcome (w : World) (t : str) (data content : pyval) :
  answered_200 w t data ->
  choices_0_message_content data = Ok content ->
  isinstance_str content = false ->
  outcome (analyze_with_mistral w t) = Ok (PyDict [(GOOD, PyList []); (BAD, PyList [])]).
Proof.
  intros Hans Hcontent Hstr.
  apply fallback_reply_outcome with (data := data) (content := content);
    try assumption.
  rewrite (extract_json_not_str w content Hstr). reflexivity.
Qed.

(** C2 on the code.  On a reply that is no JSON, with or without braces,
    the extractor returns its fallback mapping with the [error] text, and
    the pipeline returns two empty lists without any [error] key. *)
Theorem C2_extractor_error_is_dropped :
  outcome (extract_json (answering_world 200 (completion braces_no_json_reply))
                        braces_no_json_reply) = Ok FALLBACK
  /\ has_key ERROR FALLBACK = true
  /\ outcome (analyze_with_mistral
                (answering_world 200 (completion braces_no_json_reply)) sample_text)
     = Ok (PyDict [(GOOD, PyList []); (BAD, PyList [])])
  /\ outcome (analyze_with_mistral
                (answering_world 200 (completion no_json_reply)) sample_text)
     = Ok (PyDict [(GOOD, PyList []); (BAD, PyList [])])
  /\ has_key ERROR (PyDict [(GOOD, PyList []); (BAD, PyList [])]) = false.
Proof.
  split; [vm_compute; reflexivity |].
  split; [reflexivity |].
  split.
  - apply fallback_reply_outcome
      with (data := completion braces_no_json_reply)
           (content := braces_no_json_reply).
    + apply answering_world_answered.
    + reflexivity.
    + vm_compute; reflexivity.
  - split; [| reflexivity].
    apply fallback_reply_outcome
      with (data := completion no_json_reply) (content := no_json_reply).
    + apply answering_world_answered.
    + reflexivity.
    + vm_compute; reflexivity.
Qed.

(** ** The request handler *)

Lemma dict_get_Some_truthy (k : str) (d : list (str * pyval)) (v : pyval) :
  dict_get k d = Some v -> truthy (PyDict d) = true.
Proof. destruct d; [discriminate | reflexivity]. Qed.

Lemma not_blank_truthy (s : str) :
  str_eqb (strip s) [] = false -> truthy (PyStr s) = true.
Proof. destruct s; [vm_compute; discriminate | reflexivity]. Qed.

Lemma jsonify_plain (w : World) (v : pyval) :
  plain_body 2 v = true -> jsonify w v = Ok v.
Proof. intros H. unfold jsonify. rewrite H. reflexivity. Qed.

Lemma jsonify_error_mapping (w : World) (msg : str) :
  jsonify w (error_mapping msg) = Ok (error_mapping msg).
Proof. apply jsonify_plain. reflexivity. Qed.

(** The handler on a request it accepts: the pipeline runs on the text,
    and its mapping is handed to [jsonify]. *)
Lemma analyze_clauses_accepts (w : World) (d : list (str * pyval)) (s : str) :
  dict_get LEGAL_TEXT d = Some (PyStr s) ->
  str_eqb (strip s) [] = false ->
  analyze_clauses_body w (Ok (PyDict d)) =
  (analysis_result <- analyze_with_mistral w s ;;
   body <- lift (jsonify w analysis_result) ;;
   ret (body, 200%Z)).
Proof.
  intros Hget Hblank. unfold analyze_clauses_body.
  rewrite bind_lift_Ok, (dict_get_Some_truthy _ _ Hget). cbn [negb].
  unfold py_in, getitem_str. rewrite Hget, !bind_lift_Ok. cbn [negb].
  rewrite bind_ret, (not_blank_truthy _ Hblank), Hblank. reflexivity.
Qed.

Lemma analyze_clauses_accepts_outcome (w : World) (d : list (str * pyval))
      (s : str) (v : pyval) :
  dict_get LEGAL_TEXT d = Some (PyStr s) ->
  str_eqb (strip s) [] = false ->
  outcome (analyze_with_mistral w s) = Ok v ->
  jsonify w v = Ok v ->
  outcome (analyze_clauses w (Ok (PyDict d))) = Ok (v, 200%Z).
Proof.
  intros Hget Hblank Hv Hj. unfold analyze_clauses.
  rewrite outcome_try_except, (analyze_clauses_accepts w _ Hget Hblank).
  rewrite outcome_bind, Hv. cbn [rbind].
  rewrite outcome_bind, outcome_lift, Hj. reflexivity.
Qed.

(** A decoded body that is null or lacks [legal_text] is answered with
    status 400 and "Missing 'legal_text' in request body"; one whose
    [legal_text] is not a string, or is blank after trimming, with status
    400 and "Invalid or empty legal text provided".  In both cases the
    handler makes no call at all: the pipeline is not invoked. *)
Lemma decoded_body_short_circuits (w : World) (data : pyval)
      (r : http_response) :
  rejected data r ->
  analyze_clauses w (Ok data) = ([], Ok r)
  /\ snd r = 400%Z
  /\ pipeline_invoked (trace_of (analyze_clauses w (Ok data))) = false.
Proof.
  intros H.
  assert (Heq : analyze_clauses w (Ok data) = ([], Ok r)).
  { unfold analyze_clauses, analyze_clauses_body.
    destruct H as [| d Hget | d v Hget Hv | d s Hget Hs].
    - reflexivity.
    - rewrite bind_lift_Ok. destruct d as [| kv d]; [reflexivity |].
      cbn [truthy negb]. unfold py_in. rewrite Hget. reflexivity.
    - rewrite bind_lift_Ok, (dict_get_Some_truthy _ _ Hget). cbn [negb].
      unfold py_in, getitem_str. rewrite Hget, !bind_lift_Ok. cbn [negb].
      rewrite bind_ret.
      destruct v; try discriminate Hv; reflexivity.
    - rewrite bind_lift_Ok, (dict_get_Some_truthy _ _ Hget). cbn [negb].
      unfold py_in, getitem_str. rewrite Hget, !bind_lift_Ok. cbn [negb].
      rewrite bind_ret, Hs. cbn [str_eqb]. rewrite orb_true_r.
      reflexivity. }
  rewrite Heq. repeat split.
  destruct H; reflexivity.
Qed.

(** The lemma above on an empty object, a blank text and a number. *)
Lemma decoded_body_short_circuits_examples :
  analyze_clauses unconfigured_world (Ok (PyDict [])) = ([], Ok MISSING_LEGAL_TEXT)
  /\ analyze_clauses unconfigured_world
       (Ok (PyDict [(LEGAL_TEXT, PyStr (u "   "))])) = ([], Ok INVALID_LEGAL_TEXT)
  /\ analyze_clauses unconfigured_world
       (Ok (PyDict [(LEGAL_TEXT, PyInt 7)])) = ([], Ok INVALID_LEGAL_TEXT).
Proof.
  split; [| split].
  - apply (@decoded_body_short_circuits unconfigured_world (PyDict []) _).
    apply rejected_key_absent. reflexivity.
  - apply (@decoded_body_short_circuits unconfigured_world
             (PyDict [(LEGAL_TEXT, PyStr (u "   "))]) _).
    apply rejected_blank with (s := u "   "); reflexivity.
  - apply (@decoded_body_short_circuits unconfigured_world
             (PyDict [(LEGAL_TEXT, PyInt 7)]) _).
    apply rejected_not_a_string with (v := PyInt 7); reflexivity.
Defined.

(** C6 on the code.  A request sent without a body, whatever its
    Content-Type, is not answered with status 400 and
    "Missing 'legal_text' in request body": [request.get_json()] raises on
    it, line 36 is never reached, and the [except] clause of line 51
    answers with status 500 and a text that starts with
    "Internal server error: ".  The pipeline is not invoked.  The other
    cases of the claim are as stated ([decoded_body_short_circuits]). *)
Theorem C6_request_without_body_gets_500 (w : World) (json_type : bool) :
  exists e,
    get_json (Request json_type []) = Raise e
    /\ analyze_clauses w (get_json (Request json_type []))
       = ([], Ok (error_only (u "Internal server error: " ++ exn_str e), 500%Z))
    /\ (error_only (u "Internal server error: " ++ exn_str e), 500%Z)
       <> MISSING_LEGAL_TEXT
    /\ pipeline_invoked
         (trace_of (analyze_clauses w (get_json (Request json_type [])))) = false.
Proof.
  destruct json_type.
  - eexists. split; [vm_compute; reflexivity |].
    split; [| split].
    + vm_compute. reflexivity.
    + discriminate.
    + vm_compute. reflexivity.
  - eexists. split; [vm_compute; reflexivity |].
    split; [| split].
    + vm_compute. reflexivity.
    + discriminate.
    + vm_compute. reflexivity.
Qed.

(** ** An extraction that is no mapping *)

Lemma json_loads_no_request_exception (v : pyval) (e : exn) :
  json_loads v = Raise e -> is_RequestException e = false.
Proof.
  destruct v; cbn [json_loads]; intros H;
    try (inversion H; reflexivity).
  apply json_loads_str_no_request_exception with (s := s). exact H.
Qed.

Lemma json_loads_not_text_plain (v : pyval) (e : exn) :
  not_text_nor_mapping v = true -> json_loads v = Raise e ->
  is_JSONDecodeError e = false.
Proof.
  destruct v; cbn [not_text_nor_mapping json_loads]; intros Hs H;
    try discriminate Hs; inversion H; reflexivity.
Qed.




(** * Further properties *)

(** ** White space *)

Lemma forallb_rev {A} (f : A -> bool) (l : list A) :
  forallb f (rev l) = forallb f l.
Proof.
  induction l as [| x l IH]; [reflexivity |].
  cbn [rev forallb]. rewrite forallb_app, IH. cbn [forallb].
  rewrite andb_true_r. apply andb_comm.
Qed.

Lemma lstrip_decomp (s : str) :
  exists ws, s = ws ++ lstrip s /\ all_space ws = true.
Proof.
  induction s as [| c s (ws & Hs & Hws)]; [exists []; split; reflexivity |].
  cbn [lstrip]. destruct (isspace c) eqn:Hc.
  - exists (c :: ws). split; [cbn [app]; f_equal; exact Hs |].
    unfold all_space in *. cbn [forallb]. rewrite Hc, Hws. reflexivity.
  - exists []. split; reflexivity.
Qed.

Lemma lstrip_head (s r : str) (c : char) :
  lstrip s = c :: r -> isspace c = false.
Proof.
  induction s as [| x s IH]; [discriminate |].
  cbn [lstrip]. destruct (isspace x) eqn:Hx; [exact IH |].
  intros H. inversion H; subst. exact Hx.
Qed.

Lemma lstrip_nil_iff (s : str) : lstrip s = [] <-> all_space s = true.
Proof.
  unfold all_space. induction s as [| c s IH]; [split; reflexivity |].
  cbn [lstrip forallb]. destruct (isspace c); [exact IH |].
  split; discriminate.
Qed.

Lemma all_space_lstrip (s : str) : all_space (lstrip s) = all_space s.
Proof.
  unfold all_space. induction s as [| c s IH]; [reflexivity |].
  cbn [lstrip]. destruct (isspace c) eqn:Hc; [| reflexivity].
  cbn [forallb]. rewrite Hc. exact IH.
Qed.

Lemma rstrip_decomp (s : str) :
  exists ws, s = rstrip s ++ ws /\ all_space ws = true.
Proof.
  unfold rstrip. destruct (lstrip_decomp (rev s)) as (ws & Hs & Hws).
  exists (rev ws). split.
  - rewrite <- rev_app_distr, <- Hs, rev_involutive. reflexivity.
  - unfold all_space in *. rewrite forallb_rev. exact Hws.
Qed.

(** The stripped text is empty exactly when the text is white space only. *)
Lemma strip_nil_iff (s : str) : strip s = [] <-> all_space s = true.
Proof.
  unfold strip, rstrip. rewrite <- all_space_lstrip.
  split.
  - intros H. apply (f_equal (@rev char)) in H. rewrite rev_involutive in H.
    cbn [rev] in H. apply lstrip_nil_iff in H. unfold all_space in *.
    rewrite forallb_rev in H. exact H.
  - intros H. assert (Hl : lstrip (rev (lstrip s)) = []).
    { apply lstrip_nil_iff. unfold all_space in *. rewrite forallb_rev. exact H. }
    rewrite Hl. reflexivity.
Qed.

Lemma str_eqb_nil (s : str) : str_eqb s [] = true <-> s = [].
Proof. destruct s; split; intros H; try reflexivity; discriminate. Qed.

Lemma strip_blank_eqb (s : str) : str_eqb (strip s) [] = all_space s.
Proof.
  destruct (all_space s) eqn:H.
  - apply strip_nil_iff in H. rewrite H. reflexivity.
  - destruct (str_eqb (strip s) []) eqn:E; [| reflexivity].
    apply str_eqb_nil, strip_nil_iff in E. congruence.
Qed.

(** ** The request handler, case by case *)

Lemma analyze_with_mistral_returns (w : World) (t : str) :
  exists v, outcome (analyze_with_mistral w t) = Ok v.
Proof.
  rewrite analyze_with_mistral_outcome.
  destruct (outcome (analyze_with_mistral_body w t)) as [v | e]; eexists; reflexivity.
Qed.

Lemma analyze_with_mistral_trace_head (w : World) (t : str) :
  exists rest, trace_of (analyze_with_mistral w t) = Call_analyze_with_mistral t :: rest.
Proof.
  unfold analyze_with_mistral. rewrite bind_traced_Ok. eexists. reflexivity.
Qed.

Lemma jsonify_Ok (w : World) (v b : pyval) : jsonify w v = Ok b -> b = v.
Proof.
  unfold jsonify. destruct (plain_body 2 v); [congruence |].
  destruct (jsonify_raises w v); congruence.
Qed.

(** The run of the handler on a request it accepts: the calls are those
    of the pipeline, and the answer is made of what [jsonify] gives on the
    mapping of the pipeline. *)
Lemma analyze_clauses_accepted_run (w : World) (d : list (str * pyval)) (s : str) :
  dict_get LEGAL_TEXT d = Some (PyStr s) ->
  all_space s = false ->
  exists v,
    outcome (analyze_with_mistral w s) = Ok v
    /\ analyze_clauses w (Ok (PyDict d)) =
       (trace_of (analyze_with_mistral w s),
        Ok match jsonify w v with
           | Ok body => (body, 200%Z)
           | Raise e =>
               (error_only (u "Internal server error: " ++ exn_str e), 500%Z)
           end).
Proof.
  intros Hget Hblank. rewrite <- strip_blank_eqb in Hblank.
  destruct (analyze_with_mistral_returns w s) as [v Hv]. exists v.
  split; [exact Hv |].
  unfold analyze_clauses. rewrite (analyze_clauses_accepts w _ Hget Hblank).
  destruct (analyze_with_mistral w s) as [tr r]. cbn [outcome snd] in Hv. subst r.
  rewrite bind_Ok. cbn [trace_of fst].
  destruct (jsonify w v) as [body | e].
  - rewrite bind_lift_Ok. cbn. rewrite app_nil_r. reflexivity.
  - rewrite bind_lift_Raise. cbn. rewrite !app_nil_r. reflexivity.
Qed.

(** The run of the handler on a blank text. *)
Lemma analyze_clauses_blank_run (w : World) (d : list (str * pyval)) (s : str) :
  dict_get LEGAL_TEXT d = Some (PyStr s) ->
  all_space s = true ->
  analyze_clauses w (Ok (PyDict d)) = ([], Ok INVALID_LEGAL_TEXT).
Proof.
  intros Hget Hblank. apply strip_nil_iff in Hblank.
  unfold analyze_clauses, analyze_clauses_body.
  rewrite bind_lift_Ok, (dict_get_Some_truthy _ _ Hget). cbn [negb].
  unfold py_in, getitem_str. rewrite Hget, !bind_lift_Ok. cbn [negb].
  rewrite bind_ret, Hblank. cbn [str_eqb]. rewrite orb_true_r. reflexivity.
Qed.

(** X1.  On an object body whose [legal_text] is a string with at least
    one character that is no white space, the handler runs the pipeline
    once, on the text as it was sent (not trimmed), and makes no other
    call.  It answers with status 200 and the mapping the pipeline
    returned when [jsonify] serialises the mapping, as it does every
    degraded mapping; when [jsonify] raises on it, the [except] clause of
    line 51 answers with status 500 and "Internal server error: ",
    although the pipeline ran. *)
Theorem X1_accepted_request_runs_pipeline_on_raw_text
        (w : World) (d : list (str * pyval)) (s : str) :
  dict_get LEGAL_TEXT d = Some (PyStr s) ->
  all_space s = false ->
  exists v rest,
    outcome (analyze_with_mistral w s) = Ok v
    /\ analyze_clauses w (Ok (PyDict d)) =
       (Call_analyze_with_mistral s :: rest,
        Ok match jsonify w v with
           | Ok _ => (v, 200%Z)
           | Raise e =>
               (error_only (u "Internal server error: " ++ exn_str e), 500%Z)
           end)
    /\ pipeline_invoked rest = false
    /\ Call_analyze_with_mistral s :: rest = trace_of (analyze_with_mistral w s)
    /\ ((exists msg, v = error_mapping msg) -> jsonify w v = Ok v).
Proof.
  intros Hget Hblank.
  destruct (analyze_clauses_accepted_run w d Hget Hblank) as (v & Hv & Hrun).
  assert (Hrest : exists rest,
             trace_of (analyze_with_mistral w s) = Call_analyze_with_mistral s :: rest
             /\ pipeline_invoked rest = false).
  { unfold analyze_with_mistral. rewrite bind_traced_Ok. cbn [trace_of fst].
    eexists. split; [reflexivity |].
    unfold try_except.
    assert (Hbody : pipeline_invoked (trace_of (analyze_with_mistral_body w s)) = false).
    { unfold analyze_with_mistral_body. destruct (key_missing w); [reflexivity |].
      cbv zeta.
      destruct (requests_post w OPENROUTER_API_URL (headers w) (payload s))
        as [resp | e]; [| reflexivity].
      rewrite bind_traced_Ok. cbn [trace_of fst pipeline_invoked existsb orb].
      destruct (status_code resp =? 200)%Z; [| reflexivity].
      destruct (json resp) as [data | e]; [| reflexivity].
      rewrite bind_lift_Ok.
      destruct (choices_0_message_content data) as [content | e]; [| reflexivity].
      rewrite bind_lift_Ok. unfold parse_reply.
      destruct (extract_json_returns w content) as [j Hj].
      assert (Hext : pipeline_invoked (trace_of (extract_json w content)) = false).
      { destruct content; try reflexivity.
        rewrite extract_json_str.
        destruct (re_search_braces (stripped_text s0)); reflexivity. }
      destruct (extract_json w content) as [tj rj]. cbn [outcome snd] in Hj.
      subst rj. cbn [trace_of fst] in Hext. rewrite bind_Ok.
      cbn [trace_of fst]. unfold pipeline_invoked in *.
      rewrite existsb_app, Hext. cbn [orb].
      destruct (isinstance_dict j) eqn:Hdict.
      - rewrite bind_ret. destruct j; try discriminate Hdict.
        rewrite ensure_keys_dict. reflexivity.
      - destruct (json_loads j) as [r | e].
        + rewrite bind_traced_Ok. cbn [trace_of fst existsb orb].
          destruct (isinstance_dict r) eqn:Hr.
          * destruct r; try discriminate Hr. rewrite ensure_keys_dict. reflexivity.
          * destruct (ensure_keys_not_dict r Hr) as (e & He & _).
            rewrite He. reflexivity.
        + reflexivity. }
    destruct (analyze_with_mistral_body w s) as [tb [vb | eb]].
    - exact Hbody.
    - cbn [fst snd]. rewrite handler_returns. cbn [ret fst].
      rewrite app_nil_r. exact Hbody. }
  destruct Hrest as (rest & Htrace & Hrest).
  exists v, rest. rewrite Hrun, Htrace.
  split; [exact Hv |]. split.
  - destruct (jsonify w v) as [body | e] eqn:Hj; [| reflexivity].
    rewrite (jsonify_Ok _ _ Hj). reflexivity.
  - split; [exact Hrest |]. split; [reflexivity |].
    intros [msg Hmsg]. subst v. apply jsonify_error_mapping.
Qed.

(** Whatever the pipeline returns has the two clause keys. *)
Lemma pipeline_value_has_keys (w : World) (t : str) (v : pyval) :
  outcome (analyze_with_mistral w t) = Ok v ->
  has_key GOOD v = true /\ has_key BAD v = true.
Proof.
  rewrite analyze_with_mistral_outcome.
  destruct (outcome (analyze_with_mistral_body w t)) as [v0 | e] eqn:Hbody;
    intros H; inversion H; subst; [| apply has_key_error_mapping].
  revert Hbody. unfold analyze_with_mistral_body.
  destruct (key_missing w).
  { intros Hb. inversion Hb. apply has_key_error_mapping. }
  cbv zeta. rewrite outcome_bind, outcome_traced.
  destruct (requests_post w OPENROUTER_API_URL (headers w) (payload t))
    as [resp | e]; [| discriminate].
  cbn [rbind]. destruct (status_code resp =? 200)%Z.
  2: { intros Hb. inversion Hb. apply has_key_error_mapping. }
  rewrite outcome_bind, outcome_lift.
  destruct (json resp) as [data | e]; [| discriminate].
  cbn [rbind]. rewrite outcome_bind, outcome_lift.
  destruct (choices_0_message_content data) as [content | e]; [| discriminate].
  cbn [rbind]. rewrite parse_reply_outcome.
  destruct (reply_result w content) as [r | e]; [| discriminate].
  cbn [rbind]. destruct (isinstance_dict r) eqn:Hr.
  - destruct r; try discriminate Hr. rewrite ensure_keys_dict.
    intros Hb. inversion Hb. apply has_key_two_keys.
  - destruct (ensure_keys_not_dict r Hr) as (e & He & _). rewrite He.
    discriminate.
Qed.

(** The run of the handler on a body that is no object. *)
Lemma analyze_clauses_not_object_run (w : World) (data : pyval) :
  isinstance_dict data = false ->
  truthy data = true ->
  analyze_clauses w (Ok data) =
  ([], Ok match py_in LEGAL_TEXT data with
          | Ok false => MISSING_LEGAL_TEXT
          | Ok true =>
              (error_only (u "Internal server error: "
                             ++ match getitem_str data LEGAL_TEXT with
                                | Raise e => exn_str e
                                | Ok _ => []
                                end), 500%Z)
          | Raise e => (error_only (u "Internal server error: " ++ exn_str e), 500%Z)
          end).
Proof.
  intros Hdict Htruthy. unfold analyze_clauses, analyze_clauses_body.
  rewrite bind_lift_Ok, Htruthy. cbn [negb].
  destruct data; try discriminate Hdict; try discriminate Htruthy;
    cbn [py_in]; try reflexivity;
    rewrite !bind_lift_Ok;
    match goal with
    | |- context [negb ?b] => destruct b
    end; reflexivity.
Qed.

(** X2.  The handler answers every request, whatever the body and
    whatever the world, in one of three ways.  With status 200 and a
    mapping that has both clause keys, after the pipeline ran.  With
    status 400 and one of the two fixed messages, or with status 500 and a
    message that starts with "Internal server error: ", without any call.
    Or with status 500 after the pipeline ran, and then only because
    [jsonify] raised on the mapping the pipeline returned: a failure
    inside the pipeline never gives a 500. *)
Theorem X2_handler_answer_classes (w : World) (get_json : result pyval) :
  exists body status,
    outcome (analyze_clauses w get_json) = Ok (body, status)
    /\ ((status = 200%Z
         /\ has_key GOOD body = true /\ has_key BAD body = true
         /\ pipeline_invoked (trace_of (analyze_clauses w get_json)) = true)
        \/ (((body, status) = MISSING_LEGAL_TEXT
             \/ (body, status) = INVALID_LEGAL_TEXT
             \/ (status = 500%Z
                 /\ exists msg, body = error_only (u "Internal server error: " ++ msg)))
            /\ trace_of (analyze_clauses w get_json) = [])
        \/ (exists s v e,
              outcome (analyze_with_mistral w s) = Ok v
              /\ jsonify w v = Raise e
              /\ (body, status)
                 = (error_only (u "Internal server error: " ++ exn_str e), 500%Z)
              /\ pipeline_invoked (trace_of (analyze_clauses w get_json)) = true)).
Proof.
  assert (Hno : forall r,
             analyze_clauses w get_json = ([], Ok r) ->
             (r = MISSING_LEGAL_TEXT \/ r = INVALID_LEGAL_TEXT
              \/ (snd r = 500%Z
                  /\ exists msg, fst r = error_only (u "Internal server error: " ++ msg))) ->
             exists body status,
               outcome (analyze_clauses w get_json) = Ok (body, status)
               /\ ((status = 200%Z
                    /\ has_key GOOD body = true /\ has_key BAD body = true
                    /\ pipeline_invoked (trace_of (analyze_clauses w get_json)) = true)
                   \/ (((body, status) = MISSING_LEGAL_TEXT
                        \/ (body, status) = INVALID_LEGAL_TEXT
                        \/ (status = 500%Z
                            /\ exists msg,
                                 body = error_only (u "Internal server error: " ++ msg)))
                       /\ trace_of (analyze_clauses w get_json) = [])
                   \/ (exists s v e,
                         outcome (analyze_with_mistral w s) = Ok v
                         /\ jsonify w v = Raise e
                         /\ (body, status)
                            = (error_only (u "Internal server error: " ++ exn_str e),
                               500%Z)
                         /\ pipeline_invoked
                              (trace_of (analyze_clauses w get_json)) = true))).
  { intros [body status] Hrun Hr. exists body, status. rewrite Hrun.
    split; [reflexivity |]. right. left. split; [| reflexivity].
    destruct Hr as [Hr | [Hr | Hr]]; auto. }
  destruct get_json as [data | e].
  2: { apply Hno with (r := (error_only (u "Internal server error: " ++ exn_str e), 500%Z));
       [reflexivity |].
       right. right. split; [reflexivity | exists (exn_str e); reflexivity]. }
  destruct (truthy data) eqn:Htruthy.
  2: { apply Hno with (r := MISSING_LEGAL_TEXT); [| left; reflexivity].
       unfold analyze_clauses, analyze_clauses_body.
       rewrite bind_lift_Ok, Htruthy. reflexivity. }
  destruct (isinstance_dict data) eqn:Hdict.
  2: { eapply Hno; [apply analyze_clauses_not_object_run; assumption |].
       destruct (py_in LEGAL_TEXT data) as [[|] | e].
       - right. right. split; [reflexivity | eexists; reflexivity].
       - left. reflexivity.
       - right. right. split; [reflexivity | eexists; reflexivity]. }
  destruct data; try discriminate Hdict.
  destruct (dict_get LEGAL_TEXT d) as [v |] eqn:Hget.
  2: { apply Hno with (r := MISSING_LEGAL_TEXT); [| left; reflexivity].
       unfold analyze_clauses, analyze_clauses_body.
       rewrite bind_lift_Ok, Htruthy. cbn [negb]. unfold py_in. rewrite Hget.
       reflexivity. }
  destruct (isinstance_str v) eqn:Hstr.
  2: { apply Hno with (r := INVALID_LEGAL_TEXT); [| right; left; reflexivity].
       unfold analyze_clauses, analyze_clauses_body.
       rewrite bind_lift_Ok, Htruthy. cbn [negb].
       unfold py_in, getitem_str. rewrite Hget, !bind_lift_Ok. cbn [negb].
       rewrite bind_ret. destruct v; try discriminate Hstr; reflexivity. }
  destruct v; try discriminate Hstr.
  destruct (all_space s) eqn:Hblank.
  { apply Hno with (r := INVALID_LEGAL_TEXT); [| right; left; reflexivity].
    apply analyze_clauses_blank_run with (s := s); assumption. }
  destruct (analyze_clauses_accepted_run w d Hget Hblank) as (v & Hv & Hrun).
  destruct (pipeline_value_has_keys w s Hv) as [Hg Hb].
  destruct (analyze_with_mistral_trace_head w s) as [rest Hrest].
  assert (Hinv : pipeline_invoked (trace_of (analyze_clauses w (Ok (PyDict d))))
                 = true).
  { rewrite Hrun. cbn [trace_of fst].
    fold (trace_of (analyze_with_mistral w s)). rewrite Hrest. reflexivity. }
  destruct (jsonify w v) as [body | e] eqn:Hj.
  - apply jsonify_Ok in Hj. subst body.
    exists v, 200%Z. split; [rewrite Hrun; reflexivity |]. left.
    repeat split; assumption.
  - exists (error_only (u "Internal server error: " ++ exn_str e)), 500%Z.
    split; [rewrite Hrun; reflexivity |]. right. right.
    exists s, v, e. repeat split; assumption.
Qed.

(** X3.  A body that is no object, has a truth value of true and on which
    the test ['legal_text' in data] does not come out false is answered
    with status 500 and no call: a number other than zero and the boolean
    true make the test raise, a string or a list that holds [legal_text]
    makes the indexing raise. *)
Theorem X3_non_object_body_gives_500 (w : World) (data : pyval) :
  isinstance_dict data = false ->
  truthy data = true ->
  py_in LEGAL_TEXT data <> Ok false ->
  exists msg,
    analyze_clauses w (Ok data) =
    ([], Ok (error_only (u "Internal server error: " ++ msg), 500%Z)).
Proof.
  intros Hdict Htruthy Hin.
  rewrite (analyze_clauses_not_object_run w data Hdict Htruthy).
  destruct (py_in LEGAL_TEXT data) as [[|] | e].
  - eexists. reflexivity.
  - exfalso. apply Hin. reflexivity.
  - eexists. reflexivity.
Qed.

(** The property above on the number 5 and on a string that holds the
    name of the key. *)
Lemma X3_non_object_body_witness :
  (exists msg,
     analyze_clauses unconfigured_world (Ok (PyInt 5)) =
     ([], Ok (error_only (u "Internal server error: " ++ msg), 500%Z)))
  /\ (exists msg,
        analyze_clauses unconfigured_world (Ok (PyStr (u "my legal_text"))) =
        ([], Ok (error_only (u "Internal server error: " ++ msg), 500%Z))).
Proof.
  split.
  - apply (@X3_non_object_body_gives_500 unconfigured_world (PyInt 5));
      [reflexivity | reflexivity | vm_compute; discriminate].
  - apply (@X3_non_object_body_gives_500 unconfigured_world
             (PyStr (u "my legal_text")));
      [reflexivity | reflexivity | vm_compute; discriminate].
Defined.

(** X4.  Any body with a truth value of false (null, false, 0, an empty
    string, list or object), and any body in which the test
    ['legal_text' in data] comes out false (an object without the key, a
    list or a string that does not hold it), is answered with status 400
    and "Missing 'legal_text' in request body", without any call. *)
Theorem X4_falsy_or_keyless_body_gives_400 (w : World) (data : pyval) :
  truthy data = false \/ py_in LEGAL_TEXT data = Ok false ->
  analyze_clauses w (Ok data) = ([], Ok MISSING_LEGAL_TEXT).
Proof.
  intros H. unfold analyze_clauses, analyze_clauses_body.
  rewrite bind_lift_Ok.
  destruct (truthy data) eqn:Htruthy; [| reflexivity].
  destruct H as [H | H]; [discriminate |].
  cbn [negb]. rewrite H. reflexivity.
Qed.

(** The property above on the number 0 and on a list of two numbers. *)
Lemma X4_falsy_or_keyless_body_witness :
  analyze_clauses unconfigured_world (Ok (PyInt 0)) = ([], Ok MISSING_LEGAL_TEXT)
  /\ analyze_clauses unconfigured_world (Ok (PyList [PyInt 1; PyInt 2]))
     = ([], Ok MISSING_LEGAL_TEXT).
Proof.
  split.
  - apply (@X4_falsy_or_keyless_body_gives_400 unconfigured_world (PyInt 0)).
    left. reflexivity.
  - apply (@X4_falsy_or_keyless_body_gives_400 unconfigured_world
             (PyList [PyInt 1; PyInt 2])).
    right. reflexivity.
Defined.

(** X5.  For an object body whose [legal_text] is a string, the pipeline
    is invoked exactly when the string holds a character that is no white
    space; blanks, tabs, line breaks and the other Unicode spaces alone,
    in any number, are turned down. *)
Theorem X5_pipeline_runs_iff_text_not_blank
        (w : World) (d : list (str * pyval)) (s : str) :
  dict_get LEGAL_TEXT d = Some (PyStr s) ->
  pipeline_invoked (trace_of (analyze_clauses w (Ok (PyDict d))))
  = negb (all_space s).
Proof.
  intros Hget. destruct (all_space s) eqn:Hblank.
  - rewrite (analyze_clauses_blank_run w d Hget Hblank). reflexivity.
  - destruct (analyze_clauses_accepted_run w d Hget Hblank) as (v & _ & Hrun).
    rewrite Hrun. cbn [trace_of fst]. fold (trace_of (analyze_with_mistral w s)).
    destruct (analyze_with_mistral_trace_head w s) as [rest Hrest].
    rewrite Hrest. reflexivity.
Qed.

(** The property above on a text of a tab, a no-break space and a line
    break, and on a text of one letter. *)
Lemma X5_pipeline_runs_iff_witness :
  pipeline_invoked
    (trace_of (analyze_clauses unconfigured_world
                 (Ok (PyDict [(LEGAL_TEXT, PyStr [9; 160; 10]%N)])))) = false
  /\ pipeline_invoked
       (trace_of (analyze_clauses unconfigured_world
                    (Ok (PyDict [(LEGAL_TEXT, PyStr (u "a"))])))) = true.
Proof.
  split.
  - apply (@X5_pipeline_runs_iff_text_not_blank unconfigured_world
             [(LEGAL_TEXT, PyStr [9; 160; 10]%N)] [9; 160; 10]%N).
    reflexivity.
  - apply (@X5_pipeline_runs_iff_text_not_blank unconfigured_world
             [(LEGAL_TEXT, PyStr (u "a"))] (u "a")).
    reflexivity.
Defined.

(** The property X1 on a one-word text, without credential: the answer
    is the degraded mapping, with status 200. *)
Lemma X1_accepted_request_witness :
  exists v rest,
    outcome (analyze_with_mistral unconfigured_world (u "Rent")) = Ok v
    /\ analyze_clauses unconfigured_world (Ok (PyDict [(LEGAL_TEXT, PyStr (u "Rent"))])) =
       (Call_analyze_with_mistral (u "Rent") :: rest,
        Ok match jsonify unconfigured_world v with
           | Ok _ => (v, 200%Z)
           | Raise e =>
               (error_only (u "Internal server error: " ++ exn_str e), 500%Z)
           end)
    /\ pipeline_invoked rest = false
    /\ Call_analyze_with_mistral (u "Rent") :: rest
       = trace_of (analyze_with_mistral unconfigured_world (u "Rent"))
    /\ ((exists msg, v = error_mapping msg) -> jsonify unconfigured_world v = Ok v).
Proof.
  apply (@X1_accepted_request_runs_pipeline_on_raw_text unconfigured_world
           [(LEGAL_TEXT, PyStr (u "Rent"))] (u "Rent")); reflexivity.
Defined.

(** ** The pipeline, path by path *)

(** X6.  When the credential is not set, or is set to the empty string,
    the pipeline returns the mapping with the error
    "OpenRouter API key not configured" and two empty lists at once: the
    provider is not called and no parser runs. *)
Theorem X6_missing_credential_makes_no_call (w : World) (t : str) :
  OPENROUTER_API_KEY w = None \/ OPENROUTER_API_KEY w = Some [] ->
  analyze_with_mistral w t =
  ([Call_analyze_with_mistral t],
   Ok (PyDict [(ERROR, PyStr (u "OpenRouter API key not configured"));
               (GOOD, PyList []); (BAD, PyList [])])).
Proof.
  intros H. apply missing_credential_run.
  unfold key_missing. destruct H as [-> | ->]; reflexivity.
Qed.

(** The property above on a world whose credential is the empty string
    and whose provider would answer. *)
Lemma X6_missing_credential_witness :
  analyze_with_mistral
    {| OPENROUTER_API_KEY := Some [];
       requests_post := fun _ _ _ => Ok (Response 200 [] (Ok (completion list_reply)));
       literal_eval_rest := reject_rest;
       jsonify_raises := fun _ => None |} sample_text =
  ([Call_analyze_with_mistral sample_text],
   Ok (PyDict [(ERROR, PyStr (u "OpenRouter API key not configured"));
               (GOOD, PyList []); (BAD, PyList [])])).
Proof.
  apply (@X6_missing_credential_makes_no_call
           {| OPENROUTER_API_KEY := Some [];
              requests_post :=
                fun _ _ _ => Ok (Response 200 [] (Ok (completion list_reply)));
              literal_eval_rest := reject_rest;
              jsonify_raises := fun _ => None |} sample_text).
  right. reflexivity.
Defined.

(** X7.  When the provider answers with a status other than 200, the
    pipeline returns the error "API request failed: " followed by the
    status and two empty lists, right after the provider call; the body
    of the answer is not decoded, so the result is the same whatever the
    body is and even when decoding it would raise. *)
Theorem X7_other_status_is_reported (w : World) (t : str)
        (status : Z) (body : str) (decoded : result pyval) :
  key_missing w = false ->
  requests_post w OPENROUTER_API_URL (headers w) (payload t)
    = Ok (Response status body decoded) ->
  status <> 200%Z ->
  analyze_with_mistral w t =
  (trace_until_post w t,
   Ok (PyDict [(ERROR, PyStr (u "API request failed: " ++ str_of_Z status));
               (GOOD, PyList []); (BAD, PyList [])])).
Proof.
  intros Hkey Hpost Hstatus.
  apply (provider_status_run w t Hkey Hpost Hstatus).
Qed.

(** The property above on a provider that answers 503 with a body that is
    no JSON. *)
Lemma X7_other_status_witness :
  analyze_with_mistral
    {| OPENROUTER_API_KEY := Some (u "sk-or-test");
       requests_post :=
         fun _ _ _ => Ok (Response 503 (u "Service Unavailable")
                                   (Raise (Exn RequestsJSONDecodeError
                                               (u "Expecting value"))));
       literal_eval_rest := reject_rest;
       jsonify_raises := fun _ => None |} sample_text =
  (trace_until_post
     {| OPENROUTER_API_KEY := Some (u "sk-or-test");
        requests_post :=
          fun _ _ _ => Ok (Response 503 (u "Service Unavailable")
                                    (Raise (Exn RequestsJSONDecodeError
                                                (u "Expecting value"))));
        literal_eval_rest := reject_rest;
        jsonify_raises := fun _ => None |} sample_text,
   Ok (PyDict [(ERROR, PyStr (u "API request failed: 503"));
               (GOOD, PyList []); (BAD, PyList [])])).
Proof.
  apply (@X7_other_status_is_reported _ sample_text 503
           (u "Service Unavailable")
           (Raise (Exn RequestsJSONDecodeError (u "Expecting value"))));
    [reflexivity | reflexivity | discriminate].
Defined.

(** The pipeline when decoding the body of a 200 answer raises. *)
Lemma body_decoding_raises_run (w : World) (t : str) (resp : response) (e : exn) :
  key_missing w = false ->
  requests_post w OPENROUTER_API_URL (headers w) (payload t) = Ok resp ->
  status_code resp = 200%Z ->
  json resp = Raise e ->
  analyze_with_mistral w t =
  (trace_until_post w t, Ok (error_mapping (handler_message e))).
Proof.
  intros Hkey Hpost Hstatus Hjson.
  unfold analyze_with_mistral, analyze_with_mistral_body.
  rewrite Hkey. cbv zeta. rewrite Hpost, !bind_traced_Ok. cbv beta.
  rewrite Hstatus. cbn [Z.eqb Pos.eqb]. rewrite Hjson, bind_lift_Raise.
  cbn [trace_of outcome fst snd]. rewrite try_except_Raise, handler_returns.
  reflexivity.
Qed.

(** X8.  When the provider call raises, or when decoding the body of a
    200 answer raises, the pipeline returns right after the provider call
    with two empty lists and an error chosen by the first [except] clause
    that fits: "Request error: " and the text of the exception when it is
    a RequestException, also when it is a JSONDecodeError as well (the
    decoding error of the requests library); else
    "Failed to parse AI response" when it is a JSONDecodeError; else
    "Analysis error: " and the text of the exception. *)
Theorem X8_provider_exception_is_reported (w : World) (t : str) (e : exn) :
  key_missing w = false ->
  requests_post w OPENROUTER_API_URL (headers w) (payload t) = Raise e
  \/ (exists resp,
        requests_post w OPENROUTER_API_URL (headers w) (payload t) = Ok resp
        /\ status_code resp = 200%Z /\ json resp = Raise e) ->
  analyze_with_mistral w t =
  (trace_until_post w t,
   Ok (PyDict [(ERROR,
                PyStr match exn_class_of e with
                      | RequestException | RequestsJSONDecodeError =>
                          u "Request error: " ++ exn_str e
                      | JSONDecodeError => u "Failed to parse AI response"
                      | _ => u "Analysis error: " ++ exn_str e
                      end);
               (GOOD, PyList []); (BAD, PyList [])])).
Proof.
  intros Hkey H.
  assert (Hrun : analyze_with_mistral w t =
                 (trace_until_post w t, Ok (error_mapping (handler_message e)))).
  { destruct H as [Hpost | (resp & Hpost & Hstatus & Hjson)].
    - apply provider_raises_run; assumption.
    - apply body_decoding_raises_run with (resp := resp); assumption. }
  rewrite Hrun. unfold error_mapping, handler_message,
    is_RequestException, is_JSONDecodeError.
  destruct (exn_class_of e); reflexivity.
Qed.

(** The property above on a 200 answer whose body is no JSON, with the
    decoding error of the requests library. *)
Lemma X8_provider_exception_witness :
  analyze_with_mistral
    {| OPENROUTER_API_KEY := Some (u "sk-or-test");
       requests_post :=
         fun _ _ _ => Ok (Response 200 (u "<html>")
                                   (Raise (Exn RequestsJSONDecodeError
                                               (u "Expecting value"))));
       literal_eval_rest := reject_rest;
       jsonify_raises := fun _ => None |} sample_text =
  (trace_until_post
     {| OPENROUTER_API_KEY := Some (u "sk-or-test");
        requests_post :=
          fun _ _ _ => Ok (Response 200 (u "<html>")
                                    (Raise (Exn RequestsJSONDecodeError
                                                (u "Expecting value"))));
        literal_eval_rest := reject_rest;
        jsonify_raises := fun _ => None |} sample_text,
   Ok (PyDict [(ERROR, PyStr (u "Request error: Expecting value"));
               (GOOD, PyList []); (BAD, PyList [])])).
Proof.
  apply (@X8_provider_exception_is_reported _ sample_text
           (Exn RequestsJSONDecodeError (u "Expecting value")));
    [reflexivity |].
  right. eexists. repeat split; reflexivity.
Defined.

(** The calls made while the reply is parsed: parser calls, two at most. *)
Lemma parse_reply_trace (w : World) (content : pyval) :
  forallb is_parser_call (trace_of (parse_reply w content)) = true
  /\ (List.length (trace_of (parse_reply w content)) <= 2)%nat.
Proof.
  unfold parse_reply.
  assert (Hext : exists c j, extract_json w content = (c, Ok j)
                             /\ forallb is_parser_call c = true
                             /\ (List.length c <= 1)%nat).
  { destruct (isinstance_str content) eqn:Hstr.
    - destruct content; try discriminate Hstr. rewrite extract_json_str.
      destruct (re_search_braces (stripped_text s));
        eexists; eexists; (split; [reflexivity | split; [reflexivity | apply le_n]]).
    - rewrite (extract_json_not_str w content Hstr).
      eexists; eexists; (split; [reflexivity | split; [reflexivity | auto]]). }
  destruct Hext as (c & j & -> & Hc & Hlen). rewrite bind_Ok.
  cbn [trace_of fst]. rewrite forallb_app, length_app, Hc. cbn [andb].
  assert (Hens : forall r, trace_of (ensure_keys r) = []).
  { intros r. destruct (isinstance_dict r) eqn:Hr.
    - destruct r; try discriminate Hr. rewrite ensure_keys_dict. reflexivity.
    - destruct (ensure_keys_not_dict r Hr) as (e & He & _). rewrite He. reflexivity. }
  destruct (isinstance_dict j).
  - rewrite bind_ret. fold (trace_of (ensure_keys j)). rewrite Hens.
    split; [reflexivity | simpl; lia].
  - destruct (json_loads j) as [r | e].
    + rewrite bind_traced_Ok. cbn [fst]. rewrite Hens.
      split; [reflexivity | simpl; lia].
    + rewrite bind_traced_Raise. split; [reflexivity | simpl; lia].
Qed.

(** X9.  With a credential, one run of the pipeline calls the provider
    exactly once, before anything else, and after it makes at most two
    calls, both of them parser calls: the pipeline never calls the
    provider a second time and never invokes itself. *)
Theorem X9_one_provider_call_per_run (w : World) (t : str) :
  key_missing w = false ->
  exists parsers,
    trace_of (analyze_with_mistral w t) = trace_until_post w t ++ parsers
    /\ forallb is_parser_call parsers = true
    /\ (List.length parsers <= 2)%nat.
Proof.
  intros Hkey. unfold analyze_with_mistral. rewrite bind_traced_Ok.
  cbn [trace_of fst]. unfold trace_until_post.
  assert (Hbody : exists parsers,
             trace_of (analyze_with_mistral_body w t) =
             Call_requests_post OPENROUTER_API_URL (headers w) (payload t) :: parsers
             /\ forallb is_parser_call parsers = true
             /\ (List.length parsers <= 2)%nat).
  { unfold analyze_with_mistral_body. rewrite Hkey. cbv zeta.
    destruct (requests_post w OPENROUTER_API_URL (headers w) (payload t))
      as [resp | e].
    2: { exists []. repeat split; auto. }
    rewrite bind_traced_Ok. cbn [trace_of fst].
    destruct (status_code resp =? 200)%Z.
    2: { exists []. repeat split; auto. }
    destruct (json resp) as [data | e].
    2: { exists []. repeat split; auto. }
    rewrite bind_lift_Ok.
    destruct (choices_0_message_content data) as [content | e].
    2: { exists []. repeat split; auto. }
    rewrite bind_lift_Ok. destruct (parse_reply_trace w content) as [Hp Hlen].
    exists (trace_of (parse_reply w content)). repeat split; assumption. }
  destruct Hbody as (parsers & Htrace & Hp & Hlen).
  exists parsers. split; [| split; assumption].
  cbn [app]. f_equal. unfold try_except.
  destruct (analyze_with_mistral_body w t) as [tb [vb | eb]];
    cbn [trace_of fst snd] in *.
  - exact Htrace.
  - rewrite handler_returns. cbn [ret fst]. rewrite app_nil_r. exact Htrace.
Qed.

(** The property above on a reply that is a list display: the literal
    evaluator and then the decoder are called. *)
Lemma X9_one_provider_call_witness :
  exists parsers,
    trace_of (analyze_with_mistral (answering_world 200 (completion list_reply))
                                   sample_text)
    = trace_until_post (answering_world 200 (completion list_reply)) sample_text
        ++ parsers
    /\ forallb is_parser_call parsers = true
    /\ (List.length parsers <= 2)%nat.
Proof.
  apply (@X9_one_provider_call_per_run
           (answering_world 200 (completion list_reply)) sample_text).
  reflexivity.
Defined.

(** X10.  When the first choice of a 200 answer carries a content that is
    no string (null, a number, a list), the pipeline returns two empty
    lists and no error, right after the provider call: the failure stays
    inside the extractor, no parser is called, and the caller cannot tell
    the run from an analysis that found no clause. *)
Theorem X10_non_string_content_is_silent
        (w : World) (t : str) (data content : pyval) :
  answered_200 w t data ->
  choices_0_message_content data = Ok content ->
  isinstance_str content = false ->
  analyze_with_mistral w t =
  (trace_until_post w t, Ok (PyDict [(GOOD, PyList []); (BAD, PyList [])])).
Proof.
  intros Hans Hcontent Hstr.
  unfold analyze_with_mistral. rewrite (body_answered Hans).
  rewrite (bind_traced_Ok (B := pyval) (Call_requests_post _ _ _)). cbv beta.
  rewrite Hcontent, bind_lift_Ok. unfold parse_reply.
  rewrite (extract_json_not_str w content Hstr), bind_Ok.
  unfold FALLBACK. cbn [isinstance_dict app]. rewrite bind_ret, ensure_keys_dict.
  reflexivity.
Qed.

(** The property above on a content that is null. *)
Lemma X10_non_string_content_witness :
  analyze_with_mistral (answering_world 200 (completion PyNone)) sample_text =
  (trace_until_post (answering_world 200 (completion PyNone)) sample_text,
   Ok (PyDict [(GOOD, PyList []); (BAD, PyList [])])).
Proof.
  apply (@X10_non_string_content_is_silent
           (answering_world 200 (completion PyNone)) sample_text
           (completion PyNone) PyNone);
    [apply answering_world_answered | reflexivity | reflexivity].
Defined.

(** ** A reply with a brace span *)

Lemma object_members_mapping (fuel : nat) (pairs : list (str * pyval))
      (s r : str) (v : pyval) :
  object_members fuel pairs s = Ok (v, r) -> isinstance_dict v = true.
Proof.
  revert pairs s. induction fuel as [| fuel IH]; intros pairs s H; [discriminate |].
  cbn [object_members] in H. unfold rbind in H.
  destruct (scanstring s) as [[k r1] |]; [| discriminate]. cbn [fst snd] in H.
  destruct (skip_ws r1) as [| c r2]; [discriminate |].
  destruct (c =? 58)%N; [| discriminate].
  destruct (scan_once fuel (skip_ws r2)) as [[v1 r3] |]; [| discriminate].
  cbn [fst snd] in H.
  destruct (skip_ws r3) as [| c1 r4]; [discriminate |].
  destruct (c1 =? RBRACE)%N; [inversion H; reflexivity |].
  destruct (c1 =? 44)%N; [| discriminate].
  destruct (skip_ws r4) as [| c2 r5]; [discriminate |].
  destruct (c2 =? DQ)%N; [| discriminate].
  apply IH in H. exact H.
Qed.

(** What the decoder reads from a text that starts with an opening brace
    is a mapping. *)
Lemma json_loads_str_brace_mapping (s : str) (v : pyval) :
  json_loads_str (LBRACE :: s) = Ok v -> isinstance_dict v = true.
Proof.
  unfold json_loads_str. cbn [starts_with]. 
  replace (N.eqb 65279 LBRACE) with false by reflexivity. cbn [andb].
  replace (skip_ws (LBRACE :: s)) with (LBRACE :: s) by reflexivity.
  replace (2 * List.length (LBRACE :: s) + 2)%nat
    with (S (2 * List.length (LBRACE :: s) + 1))%nat by lia.
  cbn [scan_once].
  replace (N.eqb LBRACE DQ) with false by reflexivity.
  rewrite N.eqb_refl. unfold rbind.
  destruct (skip_ws s) as [| c1 r1]; [discriminate |].
  destruct (c1 =? RBRACE)%N.
  - cbn [fst snd]. destruct (skip_ws r1); intros H; inversion H; reflexivity.
  - destruct (c1 =? DQ)%N; [| discriminate].
    destruct (object_members _ [] r1) as [[v1 r2] |] eqn:Hobj; [| discriminate].
    apply object_members_mapping in Hobj. cbn [fst snd].
    destruct (skip_ws r2); intros H; inversion H; subst; exact Hobj.
Qed.

Lemma cleaned_span_brace (s : str) :
  cleaned_span (LBRACE :: s) = LBRACE :: cleaned_span s.
Proof. reflexivity. Qed.

(** With a brace span the extractor returns a mapping: the object that
    was read, or its fallback. *)
Lemma extract_json_brace_mapping (w : World) (s span : str) :
  re_search_braces (stripped_text s) = Some span ->
  exists d, outcome (extract_json w (PyStr s)) = Ok (PyDict d).
Proof.
  intros Hspan. rewrite extract_json_outcome, Hspan.
  destruct (re_search_braces_spec _ Hspan) as (pre & mid & post & _ & -> & _ & _).
  rewrite cleaned_span_brace.
  destruct (json_loads_str (LBRACE :: cleaned_span (mid ++ [RBRACE])))
    as [v | e] eqn:Hload; cbn [or_fallback].
  - apply json_loads_str_brace_mapping in Hload.
    destruct v; try discriminate Hload. eexists. reflexivity.
  - eexists. reflexivity.
Qed.

(** X11.  When the reply of the model holds an opening brace with a
    closing brace somewhere after it, the pipeline returns a mapping with
    exactly the two clause keys and no error, whether the span between the
    braces is JSON or not: a reply such as "I cannot {help}" is answered
    like an analysis without clauses. *)
Theorem X11_reply_with_braces_never_reports_error
        (w : World) (t : str) (data : pyval) (s span : str) :
  answered_200 w t data ->
  choices_0_message_content data = Ok (PyStr s) ->
  re_search_braces (stripped_text s) = Some span ->
  exists g b,
    outcome (analyze_with_mistral w t) = Ok (PyDict [(GOOD, g); (BAD, b)])
    /\ (json_loads_str (cleaned_span span) = Ok (PyDict []) \/
        (exists e, json_loads_str (cleaned_span span) = Raise e) ->
        g = PyList [] /\ b = PyList []).
Proof.
  intros Hans Hcontent Hspan.
  destruct (extract_json_brace_mapping w s Hspan) as [d Hd].
  exists (get_or_empty GOOD d), (get_or_empty BAD d). split.
  - apply mapping_reply_outcome with (data := data) (content := PyStr s);
      try assumption.
    unfold reply_result. rewrite Hd. reflexivity.
  - rewrite extract_json_outcome, Hspan in Hd.
    intros [Hempty | [e He]].
    + rewrite Hempty in Hd. inversion Hd; subst. split; reflexivity.
    + rewrite He in Hd. inversion Hd; subst. split; reflexivity.
Qed.

(** The property above on the reply "Sorry, I cannot help with {that}.". *)
Lemma X11_reply_with_braces_witness :
  exists g b,
    outcome (analyze_with_mistral
               (answering_world 200 (completion braces_no_json_reply)) sample_text)
    = Ok (PyDict [(GOOD, g); (BAD, b)]).
Proof.
  destruct (@X11_reply_with_braces_never_reports_error
              (answering_world 200 (completion braces_no_json_reply)) sample_text
              (completion braces_no_json_reply)
              (u "Sorry, I cannot help with {that}.") (u "{that}")
              (answering_world_answered _ _) eq_refl eq_refl)
    as (g & b & H & _).
  exists g, b. exact H.
Defined.

(** ** The brace span, characterised *)

Lemma drop_until_notin (c : char) (s : str) :
  ~ In c s -> drop_until c s = None.
Proof.
  induction s as [| x s IH]; intros H; [reflexivity |].
  cbn [drop_until]. destruct (N.eqb_spec x c) as [-> | Hx].
  - exfalso. apply H. left. reflexivity.
  - apply IH. intros Hin. apply H. right. exact Hin.
Qed.

Lemma drop_until_app_notin (c : char) (a b : str) :
  ~ In c a -> drop_until c (a ++ b) = drop_until c b.
Proof.
  induction a as [| x a IH]; intros H; [reflexivity |].
  cbn [app drop_until]. destruct (N.eqb_spec x c) as [-> | Hx].
  - exfalso. apply H. left. reflexivity.
  - apply IH. intros Hin. apply H. right. exact Hin.
Qed.

Lemma drop_until_app_Some (c : char) (a b r : str) :
  drop_until c a = Some r -> drop_until c (a ++ b) = Some (r ++ b).
Proof.
  revert r. induction a as [| x a IH]; intros r H; [discriminate |].
  cbn [app drop_until] in *. destruct (x =? c)%N.
  - inversion H; subst. reflexivity.
  - apply IH. exact H.
Qed.

Lemma take_through_last_notin (c : char) (s : str) :
  ~ In c s -> take_through_last c s = None.
Proof.
  induction s as [| x s IH]; intros H; [reflexivity |].
  cbn [take_through_last]. rewrite IH by (intros Hin; apply H; right; exact Hin).
  destruct (N.eqb_spec x c) as [-> | Hx]; [| reflexivity].
  exfalso. apply H. left. reflexivity.
Qed.

Lemma take_through_last_app_notin (c : char) (a b : str) :
  ~ In c b -> take_through_last c (a ++ b) = take_through_last c a.
Proof.
  intros Hb. induction a as [| x a IH].
  - cbn [app]. apply take_through_last_notin. exact Hb.
  - cbn [app take_through_last]. rewrite IH. reflexivity.
Qed.

Lemma take_through_last_found (c : char) (a post : str) :
  ~ In c post -> take_through_last c (a ++ c :: post) = Some (a ++ [c]).
Proof.
  intros Hpost. induction a as [| x a IH].
  - cbn [app take_through_last]. rewrite take_through_last_notin by exact Hpost.
    rewrite N.eqb_refl. reflexivity.
  - cbn [app take_through_last]. rewrite IH. reflexivity.
Qed.

(** The span from the first opening brace to the last closing brace is
    found. *)
Lemma re_search_braces_found (pre mid post : str) :
  ~ In LBRACE pre -> ~ In RBRACE post ->
  re_search_braces (pre ++ (LBRACE :: mid ++ [RBRACE]) ++ post)
  = Some (LBRACE :: mid ++ [RBRACE]).
Proof.
  intros Hpre Hpost. unfold re_search_braces.
  rewrite drop_until_app_notin by exact Hpre. cbn [app drop_until].
  rewrite N.eqb_refl, <- app_assoc. cbn [app].
  rewrite take_through_last_found by exact Hpost. reflexivity.
Qed.

(** X12.  The search of line 154 finds a span exactly when the text has
    an opening brace with a closing brace after it, and the span it finds
    is the one from the first opening brace of the text to its last
    closing brace: greedy, with no regard to nesting or to a second
    object in between. *)
Theorem X12_brace_span_is_first_to_last (s span : str) :
  re_search_braces s = Some span <->
  exists pre mid post,
    s = pre ++ span ++ post
    /\ span = LBRACE :: mid ++ [RBRACE]
    /\ ~ In LBRACE pre
    /\ ~ In RBRACE post.
Proof.
  split.
  - apply re_search_braces_spec.
  - intros (pre & mid & post & -> & -> & Hpre & Hpost).
    apply re_search_braces_found; assumption.
Qed.

(** ** Text around the object *)

Lemma all_space_no_brace (ws : str) :
  all_space ws = true -> ~ In LBRACE ws /\ ~ In RBRACE ws.
Proof.
  unfold all_space. induction ws as [| c ws IH]; [split; intros [] |].
  cbn [forallb]. intros H. apply andb_true_iff in H as [Hc Hws].
  destruct (IH Hws) as [Hl Hr].
  split; (intros [E | Hin]; [subst c; discriminate Hc | auto]).
Qed.

Lemma re_search_braces_padded (ws1 s ws2 : str) :
  all_space ws1 = true -> all_space ws2 = true ->
  re_search_braces (ws1 ++ s ++ ws2) = re_search_braces s.
Proof.
  intros H1 H2.
  destruct (all_space_no_brace _ H1) as [Hl1 _].
  destruct (all_space_no_brace _ H2) as [Hl2 Hr2].
  unfold re_search_braces. rewrite drop_until_app_notin by exact Hl1.
  destruct (drop_until LBRACE s) as [r |] eqn:Hdrop.
  - rewrite (@drop_until_app_Some _ _ (ws2) _ Hdrop).
    destruct (drop_until_spec _ _ Hdrop) as (pre & t & _ & -> & _).
    cbn [app]. rewrite take_through_last_app_notin by exact Hr2. reflexivity.
  - assert (Hs : ~ In LBRACE s).
    { intros Hin. clear - Hin Hdrop. induction s as [| x s IH]; [destruct Hin |].
      cbn [drop_until] in Hdrop. destruct (N.eqb_spec x LBRACE); [discriminate |].
      destruct Hin as [E | Hin]; [congruence | exact (IH Hdrop Hin)]. }
    rewrite drop_until_app_notin by exact Hs.
    rewrite drop_until_notin by exact Hl2. reflexivity.
Qed.

(** Stripping the text does not change the span that is found. *)
Lemma re_search_braces_strip (s : str) :
  re_search_braces (strip s) = re_search_braces s.
Proof.
  destruct (lstrip_decomp s) as (ws1 & Hs & H1).
  destruct (rstrip_decomp (lstrip s)) as (ws2 & Hl & H2).
  fold (strip s) in Hl. rewrite Hs at 2. rewrite Hl.
  symmetry. apply re_search_braces_padded; assumption.
Qed.

(** X13.  On a text without fence marker, whatever stands before the
    first opening brace and after the last closing brace (prose, blank
    lines, further closing braces before, further opening braces after)
    has no influence: the extractor gives the span between the two, with
    its line breaks cleaned, to the strict decoder, and returns what the
    decoder reads or else the fallback. *)
Theorem X13_text_around_the_span_is_ignored
        (w : World) (pre mid post : str) :
  str_contains FENCE (pre ++ (LBRACE :: mid ++ [RBRACE]) ++ post) = false ->
  ~ In LBRACE pre ->
  ~ In RBRACE post ->
  extract_json w (PyStr (pre ++ (LBRACE :: mid ++ [RBRACE]) ++ post)) =
  ([Call_json_loads (PyStr (cleaned_span (LBRACE :: mid ++ [RBRACE])))],
   Ok (or_fallback (json_loads_str (cleaned_span (LBRACE :: mid ++ [RBRACE]))))).
Proof.
  intros Hfence Hpre Hpost.
  rewrite extract_json_str. unfold stripped_text.
  rewrite re_sub_fence_fixed by exact Hfence.
  rewrite re_search_braces_strip, re_search_braces_found by assumption.
  reflexivity.
Qed.

(** The property above on the prose-wrapped reply. *)
Lemma X13_text_around_the_span_witness :
  extract_json unconfigured_world
    (PyStr (u "Here is the result: "
              ++ (LBRACE :: jq "'good_clauses': [], 'bad_clauses': ['x']" ++ [RBRACE])
              ++ u " Thanks!")) =
  ([Call_json_loads
      (PyStr (cleaned_span
                (LBRACE :: jq "'good_clauses': [], 'bad_clauses': ['x']" ++ [RBRACE])))],
   Ok (or_fallback
         (json_loads_str
            (cleaned_span
               (LBRACE :: jq "'good_clauses': [], 'bad_clauses': ['x']" ++ [RBRACE]))))).
Proof.
  apply (@X13_text_around_the_span_is_ignored unconfigured_world
           (u "Here is the result: ")
           (jq "'good_clauses': [], 'bad_clauses': ['x']")
           (u " Thanks!")).
  - vm_compute. reflexivity.
  - vm_compute. intuition discriminate.
  - vm_compute. intuition discriminate.
Defined.

(** ** A clean object *)

Lemma clean_one_pass_fixed (s : str) :
  ~ In NL s -> ~ In CR s -> clean_one_pass s = s.
Proof.
  unfold clean_one_pass. induction s as [| c s IH]; intros Hn Hc; [reflexivity |].
  cbn [flat_map].
  destruct (N.eqb_spec c NL) as [-> | _]; [exfalso; apply Hn; left; reflexivity |].
  destruct (N.eqb_spec c CR) as [-> | _]; [exfalso; apply Hc; left; reflexivity |].
  cbn [app]. f_equal. apply IH; intros Hin; [apply Hn | apply Hc]; right; exact Hin.
Qed.

(** X14.  On a text that is one object from its first character, an
    opening brace, to its last, a closing brace, and that holds no fence
    marker, no newline and no carriage return, the extractor does exactly
    what [json.loads] does on that text: it returns the value read, and
    the fallback mapping only when [json.loads] raises. *)
Theorem X14_clean_object_is_decoded_as_it_is (w : World) (mid : str) :
  str_contains FENCE (LBRACE :: mid ++ [RBRACE]) = false ->
  ~ In NL mid ->
  ~ In CR mid ->
  extract_json w (PyStr (LBRACE :: mid ++ [RBRACE])) =
  ([Call_json_loads (PyStr (LBRACE :: mid ++ [RBRACE]))],
   Ok (or_fallback (json_loads_str (LBRACE :: mid ++ [RBRACE])))).
Proof.
  intros Hfence Hn Hc.
  assert (Hclean : cleaned_span (LBRACE :: mid ++ [RBRACE]) = LBRACE :: mid ++ [RBRACE]).
  { rewrite cleaned_span_one_pass. apply clean_one_pass_fixed.
    - intros [E | Hin]; [discriminate E |].
      apply in_app_or in Hin as [Hin | [E | []]]; [exact (Hn Hin) | discriminate E].
    - intros [E | Hin]; [discriminate E |].
      apply in_app_or in Hin as [Hin | [E | []]]; [exact (Hc Hin) | discriminate E]. }
  rewrite extract_json_str. unfold stripped_text.
  rewrite re_sub_fence_fixed by exact Hfence.
  rewrite re_search_braces_strip.
  pose proof (@re_search_braces_found [] mid []) as Hfound.
  cbn [app] in Hfound. rewrite app_nil_r in Hfound.
  rewrite Hfound by (intros []). rewrite Hclean. reflexivity.
Qed.

(** The property above on an object with one clause in each list. *)
Lemma X14_clean_object_witness :
  extract_json unconfigured_world
    (PyStr (LBRACE :: jq "'good_clausess': ['a'], 'bad_clausess': ['b']" ++ [RBRACE])) =
  ([Call_json_loads
      (PyStr (LBRACE :: jq "'good_clausess': ['a'], 'bad_clausess': ['b']" ++ [RBRACE]))],
   Ok (or_fallback
         (json_loads_str
            (LBRACE :: jq "'good_clausess': ['a'], 'bad_clausess': ['b']" ++ [RBRACE])))).
Proof.
  apply (@X14_clean_object_is_decoded_as_it_is unconfigured_world
           (jq "'good_clausess': ['a'], 'bad_clausess': ['b']")).
  - vm_compute. reflexivity.
  - vm_compute. intuition discriminate.
  - vm_compute. intuition discriminate.
Defined.

(** ** What the fence removal leaves *)

Lemma after_fence_FENCE (r : str) :
  after_fence (FENCE ++ r) = if starts_with (u "json") r then skipn 4 r else r.
Proof. reflexivity. Qed.

Lemma without_fence_letters_after_fence (r : str) :
  without_fence_letters (after_fence (FENCE ++ r)) = without_fence_letters (FENCE ++ r).
Proof.
  rewrite after_fence_FENCE.
  replace (without_fence_letters (FENCE ++ r)) with (without_fence_letters r)
    by reflexivity.
  destruct (starts_with (u "json") r) eqn:Hj; [| reflexivity].
  apply starts_with_app in Hj as [r' ->]. reflexivity.
Qed.

(** X15.  The removal of the fence markers only deletes, and deletes only
    backticks and the letters j, s, o, n: with these five characters left
    aside, the text after the removal is the text before it, character by
    character and in the same order; and the text never gets longer. *)
Theorem X15_fence_removal_only_deletes_fence_letters (s : str) :
  without_fence_letters (re_sub_fence s) = without_fence_letters s
  /\ (List.length (re_sub_fence s) <= List.length s)%nat.
Proof.
  remember (List.length s) as n eqn:Hn.
  assert (Hle : (List.length s <= n)%nat) by lia. clear Hn.
  revert s Hle. induction n as [| n IH]; intros s Hle.
  - destruct s; [split; [reflexivity | apply le_n] | simpl in Hle; lia].
  - destruct s as [| c r]; [split; [reflexivity | cbn; lia] |].
    cbn [List.length] in Hle. rewrite re_sub_fence_cons.
    destruct (starts_with FENCE (c :: r)) eqn:Hf.
    + pose proof (after_fence_shorter c r) as Hshort.
      destruct (IH (after_fence (c :: r)) ltac:(lia)) as [Hw Hl].
      split; [| cbn [List.length]; lia].
      rewrite Hw. apply starts_with_app in Hf as [r' Hr']. rewrite Hr'.
      apply without_fence_letters_after_fence.
    + destruct (IH r ltac:(lia)) as [Hw Hl].
      split; [| cbn [List.length]; lia].
      unfold without_fence_letters in *. cbn [filter]. rewrite Hw. reflexivity.
Qed.

(** X16.  The removal of the fence markers leaves a text as it is exactly
    when the text holds no run of three backticks; a text with one or two
    backticks in a row (inline code) is not touched. *)
Theorem X16_fence_removal_fixes_marker_free_text (s : str) :
  re_sub_fence s = s <-> str_contains FENCE s = false.
Proof.
  split.
  - intros H. rewrite <- H. apply re_sub_fence_no_fence.
  - apply re_sub_fence_fixed.
Qed.

(** ** A fenced reply *)

Lemma re_sub_fence_app_plain (a b : str) :
  ~ In BACKTICK a -> re_sub_fence (a ++ b) = a ++ re_sub_fence b.
Proof.
  induction a as [| c a IH]; intros Ha; [reflexivity |].
  cbn [app]. rewrite re_sub_fence_cons, starts_with_FENCE_head.
  - f_equal. apply IH. intros Hin. apply Ha. right. exact Hin.
  - intros E. apply Ha. left. exact E.
Qed.

Lemma re_sub_fence_fenced (x : str) :
  ~ In BACKTICK x ->
  re_sub_fence (u "```json" ++ x ++ u "```") = x
  /\ re_sub_fence x = x.
Proof.
  intros Hx. split.
  - change (u "```json" ++ x ++ u "```")
      with (BACKTICK :: BACKTICK :: BACKTICK :: u "json" ++ x ++ u "```").
    rewrite re_sub_fence_cons.
    replace (starts_with FENCE (BACKTICK :: BACKTICK :: BACKTICK :: u "json" ++ x ++ u "```"))
      with true by reflexivity.
    replace (after_fence (BACKTICK :: BACKTICK :: BACKTICK :: u "json" ++ x ++ u "```"))
      with (x ++ u "```") by reflexivity.
    rewrite re_sub_fence_app_plain by exact Hx.
    replace (re_sub_fence (u "```")) with (@nil char) by reflexivity.
    apply app_nil_r.
  - rewrite <- (app_nil_r x) at 1. rewrite re_sub_fence_app_plain by exact Hx.
    rewrite re_sub_fence_nil. apply app_nil_r.
Qed.

(** X17.  A reply without backticks that the model wraps in a fenced
    block with the json tag is treated like the reply itself: the
    extractor makes the same call and returns the same value on the fenced
    text and on the bare text, whatever stands between the markers. *)
Theorem X17_fenced_reply_equals_bare_reply (w : World) (x : str) :
  ~ In BACKTICK x ->
  extract_json w (PyStr (u "```json" ++ x ++ u "```")) = extract_json w (PyStr x).
Proof.
  intros Hx. destruct (@re_sub_fence_fenced x Hx) as [Hfenced Hbare].
  rewrite !extract_json_str. unfold stripped_text.
  rewrite Hfenced, Hbare. reflexivity.
Qed.

(** The property above on an object between two line breaks. *)
Lemma X17_fenced_reply_witness :
  extract_json unconfigured_world
    (PyStr (u "```json"
              ++ ([NL] ++ jq "{'good_clauses':['a'],'bad_clauses':['b']}" ++ [NL])
              ++ u "```"))
  = extract_json unconfigured_world
      (PyStr ([NL] ++ jq "{'good_clauses':['a'],'bad_clauses':['b']}" ++ [NL])).
Proof.
  apply (@X17_fenced_reply_equals_bare_reply unconfigured_world
           ([NL] ++ jq "{'good_clauses':['a'],'bad_clauses':['b']}" ++ [NL])).
  vm_compute. intuition discriminate.
Defined.
